(** * GPR-20 VNA acquisition: the instrument driver and its sweep-setup adapter

    A shallow embedding of [gpr20_vna_acquisition/vna_driver.py] (class
    [VNADriver]) and of the sweep-setup handler of
    [gpr20_vna_acquisition/vna_node.py] (class [VNANode]).

    The driver talks to the instrument through the [vxi11] library.  That
    library is not part of the repository: it is represented by a
    [Transport], an arbitrary function from the history of exchanges so far
    and the current request to a reply or a failure.  Every method of the
    driver is a computation in a small state-and-exception monad over the
    driver object and the history of exchanges. *)

From Stdlib Require Import ZArith List String Ascii Bool Lia.
From Stdlib Require Import DecimalString DecimalPos DecimalZ.
Import ListNotations.

Local Open Scope string_scope.
Local Open Scope Z_scope.

(* ===================================================================== *)
(** ** Python text primitives used by the driver *)
(* ===================================================================== *)

Module PyStr.

(** The double quote character, code point 34. *)
Definition dquote : ascii := ascii_of_nat 34.

(** [s.replace(c, '')] for a one-character [c]. *)
Fixpoint remove_char (c : ascii) (s : string) : string :=
  match s with
  | EmptyString => EmptyString
  | String a r =>
      if Ascii.eqb a c then remove_char c r else String a (remove_char c r)
  end.

(** [s.split(sep)] for a one-character separator: never the empty list. *)
Fixpoint split (sep : ascii) (s : string) : list string :=
  match s with
  | EmptyString => [EmptyString]
  | String a r =>
      if Ascii.eqb a sep then EmptyString :: split sep r
      else match split sep r with
           | f :: fs => String a f :: fs
           | [] => [String a EmptyString]
           end
  end.

(** [str(n)] for an integer [n]. *)
Definition str (n : Z) : string := NilZero.string_of_int (Z.to_int n).

(** The white space [int] drops around an ASCII numeral: tab, line feed,
    vertical tab, form feed, carriage return and space. *)
Definition is_space (a : ascii) : bool :=
  let n := nat_of_ascii a in
  ((9 <=? n) && (n <=? 13) || (n =? 32))%nat.

Fixpoint lstrip (s : string) : string :=
  match s with
  | EmptyString => EmptyString
  | String a r => if is_space a then lstrip r else s
  end.

Fixpoint rstrip (s : string) : string :=
  match s with
  | EmptyString => EmptyString
  | String a r =>
      match rstrip r with
      | EmptyString => if is_space a then EmptyString else String a EmptyString
      | r' => String a r'
      end
  end.

Definition strip (s : string) : string := rstrip (lstrip s).

(** Digit grouping of Python 3 literals: a single underscore may stand
    between two digits.  [ungroup after_digit s] removes such underscores
    and fails on a leading, trailing or doubled one. *)
Fixpoint ungroup (after_digit : bool) (s : string) : option string :=
  match s with
  | EmptyString => if after_digit then Some EmptyString else None
  | String a r =>
      if Ascii.eqb a "_" then
        if after_digit then ungroup false r else None
      else option_map (String a) (ungroup true r)
  end.

(** An unsigned decimal numeral: at least one digit, digits only. *)
Definition digits (s : string) : option Z :=
  match ungroup false s with
  | Some t => option_map Z.of_uint (NilZero.uint_of_string t)
  | None => None
  end.

(** [int(s)] in base ten on ASCII text: surrounding white space is
    dropped, one sign is accepted, and [None] stands for [ValueError]. *)
Definition int (s : string) : option Z :=
  match strip s with
  | EmptyString => None
  | String a r =>
      if Ascii.eqb a "+" then digits r
      else if Ascii.eqb a "-" then option_map Z.opp (digits r)
      else digits (String a r)
  end.

(** Decimal digits, for reasoning about [str] and [int]. *)
Definition is_digit (a : ascii) : bool :=
  let n := nat_of_ascii a in ((48 <=? n) && (n <=? 57))%nat.

Fixpoint all_digits (s : string) : bool :=
  match s with
  | EmptyString => true
  | String a r => is_digit a && all_digits r
  end.

End PyStr.

(* ===================================================================== *)
(** ** Exceptions, the transport and the driver monad *)
(* ===================================================================== *)

(** The Python exceptions that occur in the driver.  [OSError] is also
    [socket.error] (the two names denote one class in Python 3), the class
    of refused connections and socket time-outs; [Vxi11Exception] is the
    error class of the instrument library and derives from [Exception]
    only. *)
Inductive Exn : Type :=
  | Vxi11Exception
  | OSError
  | AssertionError
  | ValueError
  | IndexError
  | AttributeError.

(** Outcome of running Python code: a value or a raised exception. *)
Inductive Result (A : Type) : Type :=
  | Ok (a : A)
  | Raise (e : Exn).
Arguments Ok {A} a.
Arguments Raise {A} e.

(** The two ways a call into the instrument library fails. *)
Inductive Failure : Type :=
  | DeviceError     (* raises [Vxi11Exception] *)
  | SocketFailure.  (* raises [socket.error], e.g. a time-out *)

Definition exn_of (f : Failure) : Exn :=
  match f with
  | DeviceError => Vxi11Exception
  | SocketFailure => OSError
  end.

Inductive Reply (A : Type) : Type :=
  | Done (a : A)
  | Fail (f : Failure).
Arguments Done {A} a.
Arguments Fail {A} f.

Definition raise_reply {A} (r : Reply A) : Result A :=
  match r with
  | Done a => Ok a
  | Fail f => Raise (exn_of f)
  end.

(** A [vxi11.Instrument] object: the host it was created for. *)
Record Instrument : Type := mkInstrument { host : string }.

(** One exchange with the instrument library. *)
Inductive Event : Type :=
  | EvOpen (ip_addr : string)               (* [Instrument(ip_addr)] *)
  | EvAsk (i : Instrument) (cmd : string)   (* [i.ask(cmd)] *)
  | EvWrite (i : Instrument) (cmd : string) (* [i.write(cmd)] *)
  | EvClose (i : Instrument).               (* [i.close()] *)

(** Exchanges in the order they were issued, oldest first. *)
Definition History : Type := list Event.

(** The instrument library and the device behind it.  A reply may depend
    on everything exchanged before, and each of the four calls may fail. *)
Record Transport : Type := mkTransport {
  t_open  : History -> string -> Reply unit;
  t_ask   : History -> Instrument -> string -> Reply string;
  t_write : History -> Instrument -> string -> Reply unit;
  t_close : History -> Instrument -> Reply unit
}.

(** The attributes of a [VNADriver] object. *)
Record VNADriver : Type := mkVNADriver {
  instrument : option Instrument;
  vna_connected : bool;
  vna_ip : option string
}.

(** [VNADriver.__init__]. *)
Definition init : VNADriver :=
  {| instrument := None; vna_connected := false; vna_ip := None |}.

(** A method body: it reads and writes the driver object, extends the
    history, and ends in a value or an exception.  Assignments made before
    an exception is raised stay in effect. *)
Definition M (A : Type) : Type :=
  VNADriver -> History -> Result A * VNADriver * History.

Definition ret {A} (a : A) : M A := fun d h => (Ok a, d, h).

Definition throw {A} (e : Exn) : M A := fun d h => (Raise e, d, h).

Definition bind {A B} (m : M A) (k : A -> M B) : M B :=
  fun d h =>
    match m d h with
    | (Ok a, d', h') => k a d' h'
    | (Raise e, d', h') => (Raise e, d', h')
    end.

(** [try: m  except <classes>: handler]; the handler answers [None] for a
    class that no [except] clause names. *)
Definition try_except {A} (m : M A) (handler : Exn -> option (M A)) : M A :=
  fun d h =>
    match m d h with
    | (Ok a, d', h') => (Ok a, d', h')
    | (Raise e, d', h') =>
        match handler e with
        | Some k => k d' h'
        | None => (Raise e, d', h')
        end
    end.

Declare Scope driver_scope.
Delimit Scope driver_scope with driver.
Notation "x <- m ;; k" := (bind m (fun x => k))
  (at level 61, m at next level, right associativity) : driver_scope.
Notation "m ;; k" := (bind m (fun _ => k))
  (at level 61, right associativity) : driver_scope.
Local Open Scope driver_scope.

Definition get_attr {A} (f : VNADriver -> A) : M A :=
  fun d h => (Ok (f d), d, h).

Definition set_instrument (i : option Instrument) : M unit :=
  fun d h => (Ok tt, {| instrument := i; vna_connected := vna_connected d;
                        vna_ip := vna_ip d |}, h).

Definition set_vna_connected (b : bool) : M unit :=
  fun d h => (Ok tt, {| instrument := instrument d; vna_connected := b;
                        vna_ip := vna_ip d |}, h).

Definition set_vna_ip (a : option string) : M unit :=
  fun d h => (Ok tt, {| instrument := instrument d;
                        vna_connected := vna_connected d; vna_ip := a |}, h).

(** [assert b], with assertions enabled (no [-O]). *)
Definition assert (b : bool) : M unit :=
  if b then ret tt else throw AssertionError.

(** [xs[n]] on a Python list. *)
Definition index {A} (xs : list A) (n : nat) : M A :=
  match nth_error xs n with
  | Some x => ret x
  | None => throw IndexError
  end.

(** [int(s)]. *)
Definition py_int (s : string) : M Z :=
  match PyStr.int s with
  | Some z => ret z
  | None => throw ValueError
  end.

Section Driver.

Variable T : Transport.

(** [Instrument(ip_addr)]. *)
Definition new_Instrument (ip_addr : string) : M Instrument :=
  fun d h =>
    (match t_open T h ip_addr with
     | Done _ => Ok (mkInstrument ip_addr)
     | Fail f => Raise (exn_of f)
     end, d, (h ++ [EvOpen ip_addr])%list).

(** [self.__instrument.ask(cmd)]; on [None] the attribute lookup fails. *)
Definition ask (cmd : string) : M string :=
  fun d h =>
    match instrument d with
    | None => (Raise AttributeError, d, h)
    | Some i => (raise_reply (t_ask T h i cmd), d, (h ++ [EvAsk i cmd])%list)
    end.

(** [self.__instrument.write(cmd)]. *)
Definition write (cmd : string) : M unit :=
  fun d h =>
    match instrument d with
    | None => (Raise AttributeError, d, h)
    | Some i =>
        (raise_reply (t_write T h i cmd), d, (h ++ [EvWrite i cmd])%list)
    end.

(** [self.__instrument.close()]. *)
Definition close : M unit :=
  fun d h =>
    match instrument d with
    | None => (Raise AttributeError, d, h)
    | Some i => (raise_reply (t_close T h i), d, (h ++ [EvClose i])%list)
    end.

(* --------------------------------------------------------------------- *)
(** *** Module constants *)

Definition VNA_CAL_LOW : Z := 0.
Definition VNA_CAL_MID : Z := 1.
Definition VNA_CAL_HIGH : Z := 2.
Definition VNA_CAL_NO_DATA : Z := 3.

(* --------------------------------------------------------------------- *)
(** *** Methods of [VNADriver] *)

Definition msg_mismatch : string :=
  "Different device manufacturer and/or model!".
Definition msg_conn_error : string := "VNA connection error!".
Definition msg_connected : string := "Connected to VNA device".

(** The [try] block of [connect_to_vna]. *)
Definition connect_body (ip_addr : string) : M unit :=
  i <- new_Instrument ip_addr ;;
  set_instrument (Some i) ;;
  response <- ask "*IDN?" ;;
  let response := PyStr.remove_char PyStr.dquote response in
  let response := PyStr.split "," response in
  r0 <- index response 0 ;;
  assert (String.eqb r0 "Anritsu") ;;
  r1 <- index response 1 ;;
  assert (String.eqb r1 "MS2026C/2").

Definition connect_to_vna (ip_addr : string) : M (bool * string) :=
  r <- try_except (connect_body ip_addr ;; ret None)
         (fun e => match e with
                   | AssertionError => Some (ret (Some (false, msg_mismatch)))
                   | OSError => Some (ret (Some (false, msg_conn_error)))
                   | _ => None
                   end) ;;
  match r with
  | Some early => ret early
  | None =>
      set_vna_connected true ;;
      set_vna_ip (Some ip_addr) ;;
      ret (true, msg_connected)
  end.

Definition disconnect_from_vna : M bool :=
  c <- get_attr vna_connected ;;
  (if c then close else ret tt) ;;
  set_vna_connected false ;;
  set_vna_ip None ;;
  set_instrument None ;;
  ret true.

Definition test_connection : M bool :=
  try_except (ask "*IDN?" ;; ret true)
    (fun e => match e with
              | Vxi11Exception | OSError => Some (ret false)
              | _ => None
              end).

Definition check_calibration_status : M Z :=
  try_except
    (r <- ask ":SENS:CORR:COLL:STAT:ACC?" ;;
     status <- py_int r ;;
     if status =? 4 then ret VNA_CAL_LOW
     else if (status =? 3) || (status =? 2) then ret VNA_CAL_MID
     else if status =? 1 then ret VNA_CAL_HIGH
     else if status =? 0 then ret VNA_CAL_NO_DATA
     else ret VNA_CAL_NO_DATA)
    (fun e => match e with
              | Vxi11Exception => Some (ret VNA_CAL_NO_DATA)
              | _ => None
              end).

Definition set_frequency_sweep (f_start f_stop n_points : Z) : M bool :=
  try_except
    (write (":SENS:FREQ:STAR " ++ PyStr.str f_start) ;;
     write (":SENS:FREQ:STOP " ++ PyStr.str f_stop) ;;
     write (":SENS:SWE:POIN " ++ PyStr.str n_points) ;;
     ret true)
    (fun e => match e with
              | Vxi11Exception => Some (ret false)
              | _ => None
              end).

Definition set_trace (n_trace : Z) (s_param t_format : string) : M bool :=
  try_except
    (write (":SENS:TRACE" ++ PyStr.str n_trace ++ ":SPAR " ++ s_param) ;;
     write (":CALC" ++ PyStr.str n_trace ++ ":FORM " ++ t_format) ;;
     ret true)
    (fun e => match e with
              | Vxi11Exception => Some (ret false)
              | _ => None
              end).

(** [set_trace()] with its default arguments. *)
Definition set_trace_default : M bool := set_trace 1 "S21" "SMITh".

Definition get_trace (n_trace : Z) : M (option string) :=
  try_except
    (r <- ask (":CALC" ++ PyStr.str n_trace ++ ":DATA? SDAT") ;; ret (Some r))
    (fun e => match e with
              | Vxi11Exception => Some (ret None)
              | _ => None
              end).

Definition get_freq (n_trace : Z) : M (option string) :=
  try_except
    (r <- ask (":SENSE" ++ PyStr.str n_trace ++ ":FREQ:DATA?") ;; ret (Some r))
    (fun e => match e with
              | Vxi11Exception => Some (ret None)
              | _ => None
              end).

(* --------------------------------------------------------------------- *)
(** *** The sweep-setup handler of [VNANode] *)

(** The request fields of [gpr20_msgs/VNASweepSetup]; the handler compares
    each of them with zero, so they are signed integers. *)
Record VNASweepSetup : Type := mkVNASweepSetup {
  freq_start : Z;
  freq_stop : Z;
  freq_points : Z
}.

(** [VNANode.__freq_sweep_setup_handler]; the result is the flag of the
    [VNASweepSetupResponse]. *)
Definition freq_sweep_setup_handler (srv : VNASweepSetup) : M bool :=
  if (freq_points srv <? 0) || (freq_points srv >? 4000) then ret false
  else if freq_stop srv <? 0 then ret false
  else if (freq_start srv >? freq_stop srv) || (freq_stop srv <? 0)
  then ret false
  else
    status <- set_frequency_sweep (freq_start srv) (freq_stop srv)
                (freq_points srv) ;;
    set_trace_default ;;
    ret status.

End Driver.

(* ===================================================================== *)
(** ** Vocabulary of the properties *)
(* ===================================================================== *)

(** Projections of the outcome of a method call. *)
Definition result_of {A} (x : Result A * VNADriver * History) : Result A :=
  fst (fst x).
Definition session_of {A} (x : Result A * VNADriver * History) : VNADriver :=
  snd (fst x).
Definition history_of {A} (x : Result A * VNADriver * History) : History :=
  snd x.

(** The call came back with a value: no exception left the method. *)
Definition returns {A} (x : Result A * VNADriver * History) : Prop :=
  exists a, result_of x = Ok a.

(** The device commands of the driver, as the methods build them. *)
Definition cmd_idn : string := "*IDN?".
Definition cmd_cal : string := ":SENS:CORR:COLL:STAT:ACC?".
Definition cmd_start (f_start : Z) : string :=
  ":SENS:FREQ:STAR " ++ PyStr.str f_start.
Definition cmd_stop (f_stop : Z) : string :=
  ":SENS:FREQ:STOP " ++ PyStr.str f_stop.
Definition cmd_points (n_points : Z) : string :=
  ":SENS:SWE:POIN " ++ PyStr.str n_points.
Definition cmd_spar (n_trace : Z) (s_param : string) : string :=
  ":SENS:TRACE" ++ PyStr.str n_trace ++ ":SPAR " ++ s_param.
Definition cmd_form (n_trace : Z) (t_format : string) : string :=
  ":CALC" ++ PyStr.str n_trace ++ ":FORM " ++ t_format.
Definition cmd_data (n_trace : Z) : string :=
  ":CALC" ++ PyStr.str n_trace ++ ":DATA? SDAT".
Definition cmd_freq (n_trace : Z) : string :=
  ":SENSE" ++ PyStr.str n_trace ++ ":FREQ:DATA?".

(** The fields [connect_to_vna] compares: the identity with its double
    quotes removed, split at the commas. *)
Definition identity_fields (idn : string) : list string :=
  PyStr.split "," (PyStr.remove_char PyStr.dquote idn).

(** How the two assertions of [connect_to_vna] fare on an identity:
    both hold, one fails, or the second field is missing. *)
Inductive Identity : Type := Expected | Unexpected | Truncated.

Definition classify_identity (idn : string) : Identity :=
  match identity_fields idn with
  | [] => Truncated
  | manufacturer :: rest =>
      if String.eqb manufacturer "Anritsu" then
        match rest with
        | [] => Truncated
        | model :: _ =>
            if String.eqb model "MS2026C/2" then Expected else Unexpected
        end
      else Unexpected
  end.

(** The calibration table in the words of the specification: device code
    4 is LOW, 3 and 2 are MID, 1 is HIGH, 0 and every other code NO_DATA. *)
Inductive CalibrationStatus : Type := LOW | MID | HIGH | NO_DATA.

Definition spec_calibration_status (code : Z) : CalibrationStatus :=
  match code with
  | 4 => LOW
  | 3 => MID
  | 2 => MID
  | 1 => HIGH
  | 0 => NO_DATA
  | _ => NO_DATA
  end.

(** The module constant that stands for a status. *)
Definition constant_of (s : CalibrationStatus) : Z :=
  match s with
  | LOW => VNA_CAL_LOW
  | MID => VNA_CAL_MID
  | HIGH => VNA_CAL_HIGH
  | NO_DATA => VNA_CAL_NO_DATA
  end.

(** The field ranges of a sweep configuration in the words of the
    specification: point count bounded and non-negative, both frequencies
    non-negative, start at most stop. *)
Definition spec_valid_sweep (srv : VNASweepSetup) : bool :=
  (0 <=? freq_points srv) && (freq_points srv <=? 4000) &&
  (0 <=? freq_start srv) && (0 <=? freq_stop srv) &&
  (freq_start srv <=? freq_stop srv).

(** The requests the handler lets through to the driver. *)
Definition handler_accepts (srv : VNASweepSetup) : bool :=
  (0 <=? freq_points srv) && (freq_points srv <=? 4000) &&
  (0 <=? freq_stop srv) && (freq_start srv <=? freq_stop srv).

(* --------------------------------------------------------------------- *)
(** *** Sessions a node can be in *)

(** The calls the node makes on its driver object. *)
Inductive Call : Type :=
  | CallConnect (ip_addr : string)
  | CallDisconnect
  | CallTestConnection
  | CallCalibration
  | CallSweep (f_start f_stop n_points : Z)
  | CallTrace (n_trace : Z) (s_param t_format : string)
  | CallGetTrace (n_trace : Z)
  | CallGetFreq (n_trace : Z).

Definition after {A} (m : M A) (d : VNADriver) (h : History)
  : VNADriver * History :=
  (session_of (m d h), history_of (m d h)).

Definition run_call (T : Transport) (c : Call)
  : VNADriver -> History -> VNADriver * History :=
  match c with
  | CallConnect ip_addr => after (connect_to_vna T ip_addr)
  | CallDisconnect => after (disconnect_from_vna T)
  | CallTestConnection => after (test_connection T)
  | CallCalibration => after (check_calibration_status T)
  | CallSweep a b n => after (set_frequency_sweep T a b n)
  | CallTrace n s f => after (set_trace T n s f)
  | CallGetTrace n => after (get_trace T n)
  | CallGetFreq n => after (get_freq T n)
  end.

(** A driver object is created by [__init__] and then only changed by
    method calls, whether they return or raise. *)
Inductive reachable (T : Transport) : VNADriver -> History -> Prop :=
  | reach_init : reachable T init []
  | reach_call c d h d' h' :
      reachable T d h -> run_call T c d h = (d', h') -> reachable T d' h'.

(** The flag is only set while a handle is held, and an address is only
    stored while the flag is set. *)
Definition flag_has_handle (d : VNADriver) : Prop :=
  (vna_connected d = true -> instrument d <> None) /\
  (vna_connected d = false -> vna_ip d = None).

(* --------------------------------------------------------------------- *)
(** *** Devices and sessions used in the examples *)

Module Scenario.

(** A device that accepts every command, identifies itself as [idn] and
    reports the calibration code text [cal]; every other query is answered
    with [data]. *)
Definition device (idn cal data : string) : Transport :=
  {| t_open := fun _ _ => Done tt;
     t_ask := fun _ _ cmd =>
       if String.eqb cmd cmd_idn then Done idn
       else if String.eqb cmd cmd_cal then Done cal
       else Done data;
     t_write := fun _ _ _ => Done tt;
     t_close := fun _ _ => Done tt |}.

Definition anritsu_idn : string := "Anritsu,MS2026C/2,1234567,V2.10".
Definition other_idn : string := "Other,Model,1,2".

Definition anritsu : Transport := device anritsu_idn "3" "1.0,0.0".
Definition other : Transport := device other_idn "3" "1.0,0.0".


(** A link on which every exchange fails in the same way. *)
Definition broken (f : Failure) : Transport :=
  {| t_open := fun _ _ => Fail f;
     t_ask := fun _ _ _ => Fail f;
     t_write := fun _ _ _ => Fail f;
     t_close := fun _ _ => Fail f |}.

(** A link that opens, then fails every exchange. *)
Definition silent (f : Failure) : Transport :=
  {| t_open := fun _ _ => Done tt;
     t_ask := fun _ _ _ => Fail f;
     t_write := fun _ _ _ => Fail f;
     t_close := fun _ _ => Fail f |}.

(** A link on which the writes fail from the [n]-th exchange on. *)
Definition failing_from (n : nat) (f : Failure) : Transport :=
  {| t_open := fun _ _ => Done tt;
     t_ask := fun _ _ _ => Done "";
     t_write := fun h _ _ =>
       if (n <=? List.length h)%nat then Fail f else Done tt;
     t_close := fun _ _ => Done tt |}.

(** A device that answers like [anritsu] but whose link fails with [f]
    when it is closed. *)
Definition unclosable (f : Failure) : Transport :=
  {| t_open := t_open anritsu;
     t_ask := t_ask anritsu;
     t_write := t_write anritsu;
     t_close := fun _ _ => Fail f |}.

Definition vna : Instrument := mkInstrument "10.0.0.1".

(** The session after a successful [connect_to_vna "10.0.0.1"]. *)
Definition connected : VNADriver :=
  {| instrument := Some vna; vna_connected := true;
     vna_ip := Some "10.0.0.1" |}.

End Scenario.

(* ===================================================================== *)
(** ** The remaining service handlers of [VNANode] *)
(* ===================================================================== *)

(** The request of [gpr20_msgs/VNAConnection]. *)
Record VNAConnection : Type := mkVNAConnection {
  connection : bool;
  ip_addr : string
}.

Section Node.

Variable T : Transport.

(** [VNANode.__connection_handler]; the result is the flag of the
    [VNAConnectionResponse]. *)
Definition connection_handler (srv : VNAConnection) : M bool :=
  status <-
    (if connection srv then
       r <- connect_to_vna T (ip_addr srv) ;; ret (fst r)
     else disconnect_from_vna T) ;;
  ret status.

(** [VNANode.__get_calibration_status_handler]; the result is the integer
    of the [VNACalibrationStatusResponse]. *)
Definition get_calibration_status_handler : M Z :=
  cal_status <- check_calibration_status T ;;
  ret cal_status.

(** [VNANode.__get_vna_data_handler]; the result is the pair of arguments
    of the [VNAGetDataResponse]. *)
Definition get_vna_data_handler : M (bool * string) :=
  data <- get_trace T 1 ;;
  match data with
  | Some text => ret (true, text)
  | None => ret (false, "")
  end.

(** [VNANode.__get_freq_data_handler]; the result is the pair of arguments
    of the [VNAGetFreqResponse].  The second one is the variable
    [freq_data], which holds [None] or a string. *)
Definition get_freq_data_handler : M (bool * option string) :=
  freq_data <- get_freq T 1 ;;
  let status := match freq_data with Some _ => true | None => false end in
  let freq_data := if negb status then Some "" else freq_data in
  ret (status, freq_data).

End Node.

(** The requests a node serves. *)
Inductive Request : Type :=
  | ReqConnection (srv : VNAConnection)
  | ReqCalibrationStatus
  | ReqSweepSetup (srv : VNASweepSetup)
  | ReqGetFreq
  | ReqGetData.

(** Serving a request: the handler runs on the driver object of the node;
    an exception that leaves the handler fails that one service call and
    the node goes on with the session as the handler left it. *)
Definition serve (T : Transport) (q : Request)
  : VNADriver -> History -> VNADriver * History :=
  match q with
  | ReqConnection srv => after (connection_handler T srv)
  | ReqCalibrationStatus => after (get_calibration_status_handler T)
  | ReqSweepSetup srv => after (freq_sweep_setup_handler T srv)
  | ReqGetFreq => after (get_freq_data_handler T)
  | ReqGetData => after (get_vna_data_handler T)
  end.

Fixpoint serve_all (T : Transport) (qs : list Request)
  (d : VNADriver) (h : History) : VNADriver * History :=
  match qs with
  | [] => (d, h)
  | q :: qs' => let '(d', h') := serve T q d h in serve_all T qs' d' h'
  end.

(** What holds of a driver object and the exchanges made so far: an
    address is stored exactly while the flag is set, the flag is only set
    while a handle is held, and both the handle and the address come from
    an [Instrument(...)] call that was made. *)
Definition session_invariant (d : VNADriver) (h : History) : Prop :=
  (vna_connected d = true <-> vna_ip d <> None) /\
  (vna_connected d = true -> instrument d <> None) /\
  (forall i, instrument d = Some i -> In (EvOpen (host i)) h) /\
  (forall a, vna_ip d = Some a -> In (EvOpen a) h).

(** Whether a text contains a character. *)
Fixpoint contains (c : ascii) (s : string) : bool :=
  match s with
  | EmptyString => false
  | String a r => Ascii.eqb a c || contains c r
  end.

(* ===================================================================== *)
(** ** Examples *)
(* ===================================================================== *)

Example str_examples :
  PyStr.str 0 = "0" /\ PyStr.str 4000 = "4000" /\ PyStr.str (-5) = "-5".
Proof. repeat split. Qed.

Example int_examples :
  PyStr.int "3" = Some 3 /\ PyStr.int " +12 " = Some 12 /\
  PyStr.int "-7" = Some (-7) /\ PyStr.int "1_000" = Some 1000 /\
  PyStr.int "" = None /\ PyStr.int "abc" = None /\ PyStr.int "1__0" = None /\
  PyStr.int "3.0" = None /\ PyStr.int "-" = None /\ PyStr.int "_1" = None.
Proof. repeat split. Qed.

(** The information separators 28..31 are not dropped: a reply that
    starts with one is not a numeral. *)
Example int_keeps_separators :
  PyStr.int (String (ascii_of_nat 28) "4") = None /\
  PyStr.int (String (ascii_of_nat 31) "4") = None /\
  PyStr.int (String (ascii_of_nat 10) "4" ++ String (ascii_of_nat 13) "")
    = Some 4.
Proof. repeat split. Qed.

Example split_examples :
  PyStr.split "," "Anritsu,MS2026C/2,123,V1" =
    ["Anritsu"; "MS2026C/2"; "123"; "V1"] /\
  PyStr.split "," "" = [""] /\ PyStr.split "," "a,,b," = ["a"; ""; "b"; ""].
Proof. repeat split. Qed.

(* ===================================================================== *)
(** ** Facts about the text primitives *)
(* ===================================================================== *)

Module PyStrFacts.
Import PyStr.

Lemma string_of_uint_digits (d : Decimal.uint) :
  all_digits (NilEmpty.string_of_uint d) = true.
Proof. induction d; simpl; auto. Qed.

Lemma digit_not_space a : is_digit a = true -> is_space a = false.
Proof.
  unfold is_digit, is_space. intros H.
  apply andb_true_iff in H as [H1 H2].
  apply Nat.leb_le in H1. apply Nat.leb_le in H2.
  apply orb_false_iff; split.
  - apply andb_false_iff; right. apply Nat.leb_gt. lia.
  - apply Nat.eqb_neq. lia.
Qed.

Lemma digit_not_underscore a : is_digit a = true -> Ascii.eqb a "_" = false.
Proof.
  intros H. destruct (Ascii.eqb_spec a "_") as [->|]; [discriminate H|reflexivity].
Qed.

Lemma rstrip_digits s : all_digits s = true -> rstrip s = s.
Proof.
  induction s as [|a r IH]; simpl; auto.
  intros H. apply andb_true_iff in H as [Ha Hr].
  rewrite (IH Hr). destruct r; [|reflexivity].
  now rewrite (digit_not_space _ Ha).
Qed.

Lemma lstrip_digits s : all_digits s = true -> lstrip s = s.
Proof.
  destruct s as [|a r]; simpl; auto.
  intros H. apply andb_true_iff in H as [Ha _].
  now rewrite (digit_not_space _ Ha).
Qed.

Lemma ungroup_digits s : all_digits s = true -> ungroup true s = Some s.
Proof.
  induction s as [|a r IH]; simpl; auto.
  intros H. apply andb_true_iff in H as [Ha Hr].
  now rewrite (digit_not_underscore _ Ha), (IH Hr).
Qed.

Lemma digits_of_uint (d : Decimal.uint) :
  d <> Decimal.Nil ->
  digits (NilZero.string_of_uint d) = Some (Z.of_uint d).
Proof.
  intros Hd. unfold digits.
  assert (Hs : NilZero.string_of_uint d = NilEmpty.string_of_uint d)
    by (destruct d; [contradiction|reflexivity..]).
  assert (Hdig := string_of_uint_digits d). rewrite <- Hs in Hdig.
  assert (Hu : ungroup false (NilZero.string_of_uint d)
               = Some (NilZero.string_of_uint d)).
  { destruct (NilZero.string_of_uint d) as [|a r] eqn:E.
    - destruct d; try contradiction; discriminate Hs.
    - simpl in *. apply andb_true_iff in Hdig as [Ha Hr].
      now rewrite (digit_not_underscore _ Ha), (ungroup_digits _ Hr). }
  rewrite Hu, (NilZero.usu _ Hd). reflexivity.
Qed.

Lemma str_pos p : str (Zpos p) = NilZero.string_of_uint (Pos.to_uint p).
Proof. reflexivity. Qed.

Lemma int_of_digits (d : Decimal.uint) :
  d <> Decimal.Nil ->
  int (NilZero.string_of_uint d) = Some (Z.of_uint d) /\
  int (String "-" (NilZero.string_of_uint d)) = Some (- Z.of_uint d).
Proof.
  intros Hd.
  assert (Hs : NilZero.string_of_uint d = NilEmpty.string_of_uint d)
    by (destruct d; [contradiction|reflexivity..]).
  assert (Hdig := string_of_uint_digits d). rewrite <- Hs in Hdig.
  assert (Hdg := digits_of_uint d Hd).
  destruct (NilZero.string_of_uint d) as [|a r] eqn:E.
  - destruct d; try contradiction; discriminate Hs.
  - assert (Ha : is_digit a = true) by (simpl in Hdig; now apply andb_true_iff in Hdig).
    split.
    + unfold int, strip. rewrite (lstrip_digits _ Hdig), (rstrip_digits _ Hdig).
      destruct (Ascii.eqb_spec a "+") as [->|]; [discriminate Ha|].
      destruct (Ascii.eqb_spec a "-") as [->|]; [discriminate Ha|].
      exact Hdg.
    + unfold int, strip.
      change (lstrip (String "-" (String a r))) with (String "-" (String a r)).
      change (rstrip (String "-" (String a r)))
        with (match rstrip (String a r) with
              | EmptyString => String "-" EmptyString
              | r' => String "-" r'
              end).
      rewrite (rstrip_digits _ Hdig). simpl Ascii.eqb. cbv iota.
      now rewrite Hdg.
Qed.

(** [int(str(n)) == n] for every integer [n]. *)
Lemma int_str (n : Z) : int (str n) = Some n.
Proof.
  destruct n as [|p|p].
  - reflexivity.
  - change (str (Zpos p)) with (NilZero.string_of_uint (Pos.to_uint p)).
    destruct (int_of_digits _ (DecimalPos.Unsigned.to_uint_nonnil p)) as [H _].
    rewrite H. f_equal.
    exact (DecimalZ.of_to (Zpos p)).
  - change (str (Zneg p))
      with (String "-" (NilZero.string_of_uint (Pos.to_uint p))).
    destruct (int_of_digits _ (DecimalPos.Unsigned.to_uint_nonnil p)) as [_ H].
    rewrite H. f_equal.
    change (Z.of_uint (Pos.to_uint p)) with (Z.of_int (Z.to_int (Zpos p))).
    now rewrite DecimalZ.of_to.
Qed.

End PyStrFacts.

(* ===================================================================== *)
(** ** The methods, case by case *)
(* ===================================================================== *)

(** Unfolds the monad so that a method call becomes a nest of matches on
    the replies of the transport. *)
Ltac run_driver :=
  unfold freq_sweep_setup_handler, connect_to_vna, connect_body,
    disconnect_from_vna, test_connection, check_calibration_status,
    set_frequency_sweep, set_trace_default, set_trace, get_trace, get_freq,
    try_except, bind, ret, throw, ask, write, close, new_Instrument,
    get_attr, set_instrument, set_vna_connected, set_vna_ip,
    raise_reply; cbn [instrument vna_connected vna_ip].

(** Gives the driver object the handle [i] named by a hypothesis. *)
Ltac with_handle d H :=
  destruct d as [ins flag ip]; cbn [instrument] in H; subst ins.

Section Cases.

Variable T : Transport.
Variables (d : VNADriver) (h : History) (i : Instrument).
Hypothesis Hi : instrument d = Some i.

Lemma test_connection_cases :
  test_connection T d h =
    (Ok (match t_ask T h i cmd_idn with Done _ => true | Fail _ => false end),
     d, h ++ [EvAsk i cmd_idn])%list.
Proof.
  with_handle d Hi. run_driver. unfold cmd_idn.
  destruct (t_ask T h i "*IDN?") as [r|[|]]; reflexivity.
Qed.

Lemma check_calibration_status_cases :
  check_calibration_status T d h =
    (match t_ask T h i cmd_cal with
     | Done r =>
         match PyStr.int r with
         | Some code => Ok (constant_of (spec_calibration_status code))
         | None => Raise ValueError
         end
     | Fail DeviceError => Ok VNA_CAL_NO_DATA
     | Fail SocketFailure => Raise OSError
     end, d, h ++ [EvAsk i cmd_cal])%list.
Proof.
  with_handle d Hi. run_driver. unfold cmd_cal, py_int.
  destruct (t_ask T h i ":SENS:CORR:COLL:STAT:ACC?") as [r|[|]];
    cbn; try reflexivity.
  destruct (PyStr.int r) as [code|]; cbn; [|reflexivity].
  destruct code as [|p|p]; try reflexivity.
  destruct p as [[[|[]|]|[|[]|]|]|[[|[]|]|[|[]|]|]|]; reflexivity.
Qed.

Lemma get_trace_cases (n_trace : Z) :
  get_trace T n_trace d h =
    (match t_ask T h i (cmd_data n_trace) with
     | Done r => Ok (Some r)
     | Fail DeviceError => Ok None
     | Fail SocketFailure => Raise OSError
     end, d, h ++ [EvAsk i (cmd_data n_trace)])%list.
Proof.
  with_handle d Hi. run_driver. fold (cmd_data n_trace).
  destruct (t_ask T h i (cmd_data n_trace)) as [r|[|]]; reflexivity.
Qed.

Lemma get_freq_cases (n_trace : Z) :
  get_freq T n_trace d h =
    (match t_ask T h i (cmd_freq n_trace) with
     | Done r => Ok (Some r)
     | Fail DeviceError => Ok None
     | Fail SocketFailure => Raise OSError
     end, d, h ++ [EvAsk i (cmd_freq n_trace)])%list.
Proof.
  with_handle d Hi. run_driver. fold (cmd_freq n_trace).
  destruct (t_ask T h i (cmd_freq n_trace)) as [r|[|]]; reflexivity.
Qed.

(** What a failed write turns into: the [except] clause of the setters
    names [Vxi11Exception] only. *)
Lemma set_frequency_sweep_cases (f_start f_stop n_points : Z) :
  let w1 := EvWrite i (cmd_start f_start) in
  let w2 := EvWrite i (cmd_stop f_stop) in
  let w3 := EvWrite i (cmd_points n_points) in
  let failed (f : Failure) : Result bool :=
    match f with DeviceError => Ok false | SocketFailure => Raise OSError end in
  set_frequency_sweep T f_start f_stop n_points d h =
    match t_write T h i (cmd_start f_start) with
    | Fail f => (failed f, d, h ++ [w1])
    | Done _ =>
        match t_write T (h ++ [w1]) i (cmd_stop f_stop) with
        | Fail f => (failed f, d, h ++ [w1; w2])
        | Done _ =>
            match t_write T (h ++ [w1; w2]) i (cmd_points n_points) with
            | Fail f => (failed f, d, h ++ [w1; w2; w3])
            | Done _ => (Ok true, d, h ++ [w1; w2; w3])
            end
        end
    end%list.
Proof.
  intros w1 w2 w3 failed. subst w1 w2 w3 failed.
  with_handle d Hi. run_driver.
  fold (cmd_start f_start) (cmd_stop f_stop) (cmd_points n_points).
  replace (h ++ [EvWrite i (cmd_start f_start); EvWrite i (cmd_stop f_stop)])%list
    with ((h ++ [EvWrite i (cmd_start f_start)]) ++ [EvWrite i (cmd_stop f_stop)])%list
    by (now rewrite <- app_assoc).
  replace (h ++ [EvWrite i (cmd_start f_start); EvWrite i (cmd_stop f_stop);
                 EvWrite i (cmd_points n_points)])%list
    with (((h ++ [EvWrite i (cmd_start f_start)]) ++ [EvWrite i (cmd_stop f_stop)])
            ++ [EvWrite i (cmd_points n_points)])%list
    by (now rewrite <- !app_assoc).
  destruct (t_write T h i (cmd_start f_start)) as [[]|[|]]; try reflexivity.
  destruct (t_write T _ i (cmd_stop f_stop)) as [[]|[|]]; try reflexivity.
  destruct (t_write T _ i (cmd_points n_points)) as [[]|[|]]; reflexivity.
Qed.

Lemma set_trace_cases (n_trace : Z) (s_param t_format : string) :
  let w1 := EvWrite i (cmd_spar n_trace s_param) in
  let w2 := EvWrite i (cmd_form n_trace t_format) in
  let failed (f : Failure) : Result bool :=
    match f with DeviceError => Ok false | SocketFailure => Raise OSError end in
  set_trace T n_trace s_param t_format d h =
    match t_write T h i (cmd_spar n_trace s_param) with
    | Fail f => (failed f, d, h ++ [w1])
    | Done _ =>
        match t_write T (h ++ [w1]) i (cmd_form n_trace t_format) with
        | Fail f => (failed f, d, h ++ [w1; w2])
        | Done _ => (Ok true, d, h ++ [w1; w2])
        end
    end%list.
Proof.
  intros w1 w2 failed. subst w1 w2 failed.
  with_handle d Hi. run_driver.
  fold (cmd_spar n_trace s_param) (cmd_form n_trace t_format).
  replace (h ++ [EvWrite i (cmd_spar n_trace s_param);
                 EvWrite i (cmd_form n_trace t_format)])%list
    with ((h ++ [EvWrite i (cmd_spar n_trace s_param)])
            ++ [EvWrite i (cmd_form n_trace t_format)])%list
    by (now rewrite <- app_assoc).
  destruct (t_write T h i (cmd_spar n_trace s_param)) as [[]|[|]]; try reflexivity.
  destruct (t_write T _ i (cmd_form n_trace t_format)) as [[]|[|]]; reflexivity.
Qed.

Lemma disconnect_from_vna_cases :
  disconnect_from_vna T d h =
    if vna_connected d then
      match t_close T h i with
      | Done _ => (Ok true, init, h ++ [EvClose i])
      | Fail f => (Raise (exn_of f), d, h ++ [EvClose i])
      end%list
    else (Ok true, init, h).
Proof.
  with_handle d Hi. run_driver.
  destruct flag; cbn [instrument vna_connected vna_ip]; [|reflexivity].
  destruct (t_close T h i) as [[]|f]; reflexivity.
Qed.

End Cases.

Section Connect.

Variable T : Transport.

Lemma connect_to_vna_cases (ip_addr : string) (d : VNADriver) (h : History) :
  let i := mkInstrument ip_addr in
  let h1 := (h ++ [EvOpen ip_addr])%list in
  let h2 := (h ++ [EvOpen ip_addr; EvAsk i cmd_idn])%list in
  let d1 := {| instrument := Some i; vna_connected := vna_connected d;
               vna_ip := vna_ip d |} in
  connect_to_vna T ip_addr d h =
    match t_open T h ip_addr with
    | Fail DeviceError => (Raise Vxi11Exception, d, h1)
    | Fail SocketFailure => (Ok (false, msg_conn_error), d, h1)
    | Done _ =>
        match t_ask T h1 i cmd_idn with
        | Fail DeviceError => (Raise Vxi11Exception, d1, h2)
        | Fail SocketFailure => (Ok (false, msg_conn_error), d1, h2)
        | Done idn =>
            match classify_identity idn with
            | Expected =>
                (Ok (true, msg_connected),
                 {| instrument := Some i; vna_connected := true;
                    vna_ip := Some ip_addr |}, h2)
            | Unexpected => (Ok (false, msg_mismatch), d1, h2)
            | Truncated => (Raise IndexError, d1, h2)
            end
        end
    end.
Proof.
  intros i h1 h2 d1. subst i h1 h2 d1.
  replace (h ++ [EvOpen ip_addr; EvAsk (mkInstrument ip_addr) cmd_idn])%list
    with ((h ++ [EvOpen ip_addr]) ++ [EvAsk (mkInstrument ip_addr) cmd_idn])%list
    by (now rewrite <- app_assoc).
  run_driver. fold cmd_idn.
  destruct (t_open T h ip_addr) as [[]|[|]]; try reflexivity.
  cbn [instrument].
  destruct (t_ask T _ (mkInstrument ip_addr) cmd_idn) as [idn|[|]];
    try reflexivity.
  unfold classify_identity, identity_fields, index, assert.
  destruct (PyStr.split "," (PyStr.remove_char PyStr.dquote idn))
    as [|manufacturer rest]; cbn; [reflexivity|].
  unfold ret, throw.
  destruct (String.eqb manufacturer "Anritsu"); cbn; [|reflexivity].
  destruct rest as [|model rest]; cbn; [reflexivity|].
  destruct (String.eqb model "MS2026C/2"); reflexivity.
Qed.

End Connect.

(* ===================================================================== *)
(** ** Session state: what the methods leave alone, and an invariant *)
(* ===================================================================== *)

(** Splits on every reply of the transport that the goal still inspects. *)
Ltac split_replies :=
  repeat match goal with
  | |- context [match t_ask ?T ?h ?i ?c with _ => _ end] =>
      destruct (t_ask T h i c) as [?|[|]]
  | |- context [match t_write ?T ?h ?i ?c with _ => _ end] =>
      destruct (t_write T h i c) as [[]|[|]]
  | |- context [match t_open ?T ?h ?a with _ => _ end] =>
      destruct (t_open T h a) as [[]|[|]]
  end.

(** Without a handle the attribute lookup fails before anything is sent. *)
Lemma no_handle_raises (T : Transport) (d : VNADriver) (h : History) :
  instrument d = None ->
  test_connection T d h = (Raise AttributeError, d, h) /\
  check_calibration_status T d h = (Raise AttributeError, d, h) /\
  (forall a b n, set_frequency_sweep T a b n d h = (Raise AttributeError, d, h)) /\
  (forall n s f, set_trace T n s f d h = (Raise AttributeError, d, h)) /\
  (forall n, get_trace T n d h = (Raise AttributeError, d, h)) /\
  (forall n, get_freq T n d h = (Raise AttributeError, d, h)).
Proof.
  intros H. destruct d as [ins flag ip]. cbn in H. subst ins.
  repeat split; intros; reflexivity.
Qed.

Section Frame.

Variable T : Transport.
Variables (d : VNADriver) (h : History).

Lemma test_connection_frame : session_of (test_connection T d h) = d.
Proof.
  destruct (instrument d) as [i|] eqn:Hi.
  - now rewrite (test_connection_cases T d h i Hi).
  - now rewrite (proj1 (no_handle_raises T d h Hi)).
Qed.

Lemma check_calibration_status_frame :
  session_of (check_calibration_status T d h) = d.
Proof.
  destruct (instrument d) as [i|] eqn:Hi.
  - now rewrite (check_calibration_status_cases T d h i Hi).
  - destruct (no_handle_raises T d h Hi) as (_ & H & _). now rewrite H.
Qed.

Lemma set_frequency_sweep_frame a b n :
  session_of (set_frequency_sweep T a b n d h) = d.
Proof.
  destruct (instrument d) as [i|] eqn:Hi.
  - rewrite (set_frequency_sweep_cases T d h i Hi). cbv zeta.
    split_replies; reflexivity.
  - destruct (no_handle_raises T d h Hi) as (_ & _ & H & _). now rewrite H.
Qed.

Lemma set_trace_frame n s f : session_of (set_trace T n s f d h) = d.
Proof.
  destruct (instrument d) as [i|] eqn:Hi.
  - rewrite (set_trace_cases T d h i Hi). cbv zeta.
    split_replies; reflexivity.
  - destruct (no_handle_raises T d h Hi) as (_ & _ & _ & H & _). now rewrite H.
Qed.

Lemma get_trace_frame n : session_of (get_trace T n d h) = d.
Proof.
  destruct (instrument d) as [i|] eqn:Hi.
  - now rewrite (get_trace_cases T d h i Hi).
  - destruct (no_handle_raises T d h Hi) as (_ & _ & _ & _ & H & _).
    now rewrite H.
Qed.

Lemma get_freq_frame n : session_of (get_freq T n d h) = d.
Proof.
  destruct (instrument d) as [i|] eqn:Hi.
  - now rewrite (get_freq_cases T d h i Hi).
  - destruct (no_handle_raises T d h Hi) as (_ & _ & _ & _ & _ & H).
    now rewrite H.
Qed.

(** [connect_to_vna] never drops a handle and never raises the flag
    without storing one. *)
Lemma connect_to_vna_keeps_invariant ip_addr :
  flag_has_handle d ->
  flag_has_handle (session_of (connect_to_vna T ip_addr d h)).
Proof.
  intros Hinv. rewrite connect_to_vna_cases. cbv zeta.
  destruct (t_open T h ip_addr) as [[]|[|]]; try exact Hinv.
  destruct Hinv as [_ Hip].
  destruct (t_ask T _ _ cmd_idn) as [idn|[|]];
    try destruct (classify_identity idn);
    unfold flag_has_handle, session_of; cbn;
    (split; [discriminate|try discriminate; exact Hip]).
Qed.

Lemma disconnect_from_vna_result :
  flag_has_handle d ->
  disconnect_from_vna T d h =
    match instrument d with
    | Some i =>
        if vna_connected d then
          match t_close T h i with
          | Done _ => (Ok true, init, h ++ [EvClose i])
          | Fail f => (Raise (exn_of f), d, h ++ [EvClose i])
          end
        else (Ok true, init, h)
    | None => (Ok true, init, h)
    end%list.
Proof.
  intros Hinv. destruct (instrument d) as [i|] eqn:Hi.
  - now apply disconnect_from_vna_cases.
  - destruct d as [ins flag ip]. cbn in Hi. subst ins.
    destruct flag; [|reflexivity].
    now destruct (proj1 Hinv eq_refl).
Qed.

End Frame.

Lemma flag_has_handle_init : flag_has_handle init.
Proof. unfold flag_has_handle. cbn. split; [discriminate|reflexivity]. Qed.

Lemma run_call_keeps_invariant T c d h :
  flag_has_handle d -> flag_has_handle (fst (run_call T c d h)).
Proof.
  intros Hinv. destruct c; unfold run_call, after; cbn [fst].
  - now apply connect_to_vna_keeps_invariant.
  - rewrite (disconnect_from_vna_result T d h Hinv).
    destruct (instrument d) as [i|]; [|exact flag_has_handle_init].
    destruct (vna_connected d) eqn:Ec; [|exact flag_has_handle_init].
    destruct (t_close T h i) as [[]|f];
      [exact flag_has_handle_init|exact Hinv].
  - now rewrite test_connection_frame.
  - now rewrite check_calibration_status_frame.
  - now rewrite set_frequency_sweep_frame.
  - now rewrite set_trace_frame.
  - now rewrite get_trace_frame.
  - now rewrite get_freq_frame.
Qed.

Lemma reachable_flag_has_handle T d h :
  reachable T d h -> flag_has_handle d.
Proof.
  induction 1 as [|c d h d' h' _ IH Hrun].
  - exact flag_has_handle_init.
  - change d' with (fst (d', h')). rewrite <- Hrun.
    now apply run_call_keeps_invariant.
Qed.

(** The table of the specification, as comparisons. *)
Lemma spec_calibration_status_eqn (code : Z) :
  spec_calibration_status code =
    if code =? 4 then LOW
    else if (code =? 3) || (code =? 2) then MID
    else if code =? 1 then HIGH
    else NO_DATA.
Proof.
  destruct code as [|p|p]; try reflexivity.
  destruct p as [[[|[]|]|[|[]|]|]|[[|[]|]|[|[]|]|]|]; reflexivity.
Qed.

Lemma constant_of_range (s : CalibrationStatus) :
  In (constant_of s) [VNA_CAL_LOW; VNA_CAL_MID; VNA_CAL_HIGH; VNA_CAL_NO_DATA].
Proof. destruct s; cbn; auto. Qed.

Lemma constant_differs_from_code (code : Z) :
  constant_of (spec_calibration_status code) <> code.
Proof.
  rewrite spec_calibration_status_eqn.
  destruct (Z.eqb_spec code 4); [subst; discriminate|].
  destruct (Z.eqb_spec code 3); [subst; discriminate|].
  destruct (Z.eqb_spec code 2); [subst; discriminate|].
  destruct (Z.eqb_spec code 1); [subst; discriminate|].
  cbn. unfold VNA_CAL_NO_DATA. lia.
Qed.

(* ===================================================================== *)
(** ** Calibration status *)
(* ===================================================================== *)

(** Every integer is the value of some reply text, so the table below is
    about every device code. *)
Lemma every_code_has_a_reply (code : Z) : PyStr.int (PyStr.str code) = Some code.
Proof. exact (PyStrFacts.int_str code). Qed.

(** The table itself: a reply that reads as [code] gives the constant of
    the status the specification assigns to [code], and a
    [Vxi11Exception] gives [VNA_CAL_NO_DATA]. *)
Lemma calibration_codes_map_exactly T d h i r code :
  instrument d = Some i ->
  t_ask T h i cmd_cal = Done r -> PyStr.int r = Some code ->
  result_of (check_calibration_status T d h)
    = Ok (constant_of (spec_calibration_status code)).
Proof.
  intros Hi Hr Hc. rewrite (check_calibration_status_cases T d h i Hi).
  now rewrite Hr, Hc.
Qed.

Lemma calibration_device_error_is_no_data T d h i :
  instrument d = Some i ->
  t_ask T h i cmd_cal = Fail DeviceError ->
  result_of (check_calibration_status T d h) = Ok VNA_CAL_NO_DATA.
Proof.
  intros Hi Hr. rewrite (check_calibration_status_cases T d h i Hi).
  now rewrite Hr.
Qed.

(** C1: the specification maps every transport failure of the calibration
    query to NO_DATA.  On a link whose exchanges fail at socket level (a
    time-out), [check_calibration_status] does not return NO_DATA: the
    [OSError] leaves the method, because its [except] clause names
    [Vxi11Exception] only.  On the same link [test_connection], whose
    clause names both classes, returns [False]. *)
Theorem check_calibration_status_socket_failure_escapes :
  check_calibration_status (Scenario.silent SocketFailure)
      Scenario.connected []
    = (Raise OSError, Scenario.connected, [EvAsk Scenario.vna cmd_cal]) /\
  test_connection (Scenario.silent SocketFailure) Scenario.connected []
    = (Ok false, Scenario.connected, [EvAsk Scenario.vna cmd_idn]).
Proof. split; reflexivity. Qed.

(** C10: whenever [check_calibration_status] returns, the value is one of
    the module constants 0 (LOW), 1 (MID), 2 (HIGH), 3 (NO_DATA); for a
    reply that reads as a device code it does return, the value is never
    that code, code 4 gives 0 and code 1 gives 2; for a [Vxi11Exception]
    it returns 3. *)
Theorem check_calibration_status_constants T d h :
  (VNA_CAL_LOW = 0 /\ VNA_CAL_MID = 1 /\ VNA_CAL_HIGH = 2 /\
   VNA_CAL_NO_DATA = 3) /\
  (forall v, result_of (check_calibration_status T d h) = Ok v ->
     In v [VNA_CAL_LOW; VNA_CAL_MID; VNA_CAL_HIGH; VNA_CAL_NO_DATA]) /\
  (forall i r code,
     instrument d = Some i ->
     t_ask T h i cmd_cal = Done r -> PyStr.int r = Some code ->
     exists v,
       result_of (check_calibration_status T d h) = Ok v /\
       In v [VNA_CAL_LOW; VNA_CAL_MID; VNA_CAL_HIGH; VNA_CAL_NO_DATA] /\
       v <> code /\
       (code = 4 -> v = 0) /\ (code = 1 -> v = 2)) /\
  (forall i,
     instrument d = Some i -> t_ask T h i cmd_cal = Fail DeviceError ->
     result_of (check_calibration_status T d h) = Ok VNA_CAL_NO_DATA).
Proof.
  split; [repeat split|split; [|split]]; [| |apply calibration_device_error_is_no_data].
  - intros v Hv. destruct (instrument d) as [i|] eqn:Hi.
    + rewrite (check_calibration_status_cases T d h i Hi) in Hv.
      unfold result_of in Hv. cbn [fst] in Hv.
      destruct (t_ask T h i cmd_cal) as [r|[|]].
      * destruct (PyStr.int r) as [code|]; [|discriminate Hv].
        injection Hv as <-. apply constant_of_range.
      * injection Hv as <-. cbn. auto.
      * discriminate Hv.
    + destruct (no_handle_raises T d h Hi) as (_ & H & _).
      rewrite H in Hv. discriminate Hv.
  - intros i r code Hi Hr Hc.
    exists (constant_of (spec_calibration_status code)).
    split; [now apply (calibration_codes_map_exactly T d h i r)|].
    split; [apply constant_of_range|].
    split; [apply constant_differs_from_code|].
    split; intros ->; reflexivity.
Qed.

Lemma check_calibration_status_constants_witness :
  result_of (check_calibration_status Scenario.anritsu Scenario.connected [])
    = Ok VNA_CAL_MID /\
  exists v,
    result_of (check_calibration_status Scenario.anritsu Scenario.connected [])
      = Ok v /\
    In v [VNA_CAL_LOW; VNA_CAL_MID; VNA_CAL_HIGH; VNA_CAL_NO_DATA] /\
    v <> 3 /\ (3 = 4 -> v = 0) /\ (3 = 1 -> v = 2).
Proof.
  split; [reflexivity|].
  exact (proj1 (proj2 (proj2 (check_calibration_status_constants
                                Scenario.anritsu Scenario.connected [])))
           Scenario.vna "3" 3 eq_refl eq_refl eq_refl).
Defined.

(* ===================================================================== *)
(** ** Frequency sweep and traces *)
(* ===================================================================== *)

(** With every write accepted, the three commands go out in the order
    start, stop, points, carrying the arguments as [str] prints them, and
    the method returns [True]. *)
Lemma set_frequency_sweep_three_writes T d h i f_start f_stop n_points :
  instrument d = Some i ->
  (forall h' c, t_write T h' i c = Done tt) ->
  set_frequency_sweep T f_start f_stop n_points d h =
    (Ok true, d,
     h ++ [EvWrite i (cmd_start f_start); EvWrite i (cmd_stop f_stop);
           EvWrite i (cmd_points n_points)])%list.
Proof.
  intros Hi Hw. rewrite (set_frequency_sweep_cases T d h i Hi). cbv zeta.
  now rewrite !Hw.
Qed.

(** [True] is returned exactly when all three writes are accepted. *)
Lemma set_frequency_sweep_true_iff T d h i f_start f_stop n_points :
  instrument d = Some i ->
  let w1 := EvWrite i (cmd_start f_start) in
  let w2 := EvWrite i (cmd_stop f_stop) in
  result_of (set_frequency_sweep T f_start f_stop n_points d h) = Ok true <->
  t_write T h i (cmd_start f_start) = Done tt /\
  t_write T (h ++ [w1])%list i (cmd_stop f_stop) = Done tt /\
  t_write T (h ++ [w1; w2])%list i (cmd_points n_points) = Done tt.
Proof.
  intros Hi w1 w2. subst w1 w2.
  rewrite (set_frequency_sweep_cases T d h i Hi). cbv zeta.
  split_replies; unfold result_of; cbn [fst]; split;
    try (intros H; discriminate H);
    try (intros (H1 & H2 & H3); discriminate);
    auto.
Qed.

(** A write refused with [Vxi11Exception] ends the method with [False];
    no later command is sent. *)
Lemma set_frequency_sweep_device_error_first T d h i f_start f_stop n_points :
  instrument d = Some i ->
  t_write T h i (cmd_start f_start) = Fail DeviceError ->
  set_frequency_sweep T f_start f_stop n_points d h =
    (Ok false, d, h ++ [EvWrite i (cmd_start f_start)])%list.
Proof.
  intros Hi Hw. rewrite (set_frequency_sweep_cases T d h i Hi). cbv zeta.
  now rewrite Hw.
Qed.

(** C4: the specification has [set_frequency_sweep] return false on the
    first transport failure.  With the start frequency accepted and the stop
    frequency failing at socket level, the method sends the two commands
    and nothing after them, but it does not return false: the [OSError]
    leaves the method.  With a [Vxi11Exception] at the same place it
    returns [False], and on a sound link the three writes go out in the
    order start, stop, points with the arguments unchanged, start above
    stop included. *)
Theorem set_frequency_sweep_socket_failure_escapes :
  set_frequency_sweep (Scenario.failing_from 1 SocketFailure) 100 200 10
      Scenario.connected []
    = (Raise OSError, Scenario.connected,
       [EvWrite Scenario.vna ":SENS:FREQ:STAR 100";
        EvWrite Scenario.vna ":SENS:FREQ:STOP 200"]) /\
  set_frequency_sweep (Scenario.failing_from 1 DeviceError) 100 200 10
      Scenario.connected []
    = (Ok false, Scenario.connected,
       [EvWrite Scenario.vna ":SENS:FREQ:STAR 100";
        EvWrite Scenario.vna ":SENS:FREQ:STOP 200"]) /\
  set_frequency_sweep Scenario.anritsu 100 50 10 Scenario.connected []
    = (Ok true, Scenario.connected,
       [EvWrite Scenario.vna ":SENS:FREQ:STAR 100";
        EvWrite Scenario.vna ":SENS:FREQ:STOP 50";
        EvWrite Scenario.vna ":SENS:SWE:POIN 10"]).
Proof. repeat split. Qed.

(** A reply is handed back as it came, the empty reply included, and a
    [Vxi11Exception] gives [None]; one query is sent either way. *)
Lemma get_trace_reply_verbatim T d h i n_trace :
  instrument d = Some i ->
  (forall r, t_ask T h i (cmd_data n_trace) = Done r ->
     get_trace T n_trace d h
       = (Ok (Some r), d, h ++ [EvAsk i (cmd_data n_trace)])%list) /\
  (t_ask T h i (cmd_data n_trace) = Fail DeviceError ->
     get_trace T n_trace d h
       = (Ok None, d, h ++ [EvAsk i (cmd_data n_trace)])%list).
Proof.
  intros Hi. rewrite (get_trace_cases T d h i Hi).
  split; [intros r Hr|intros Hr]; now rewrite Hr.
Qed.

Lemma get_freq_reply_verbatim T d h i n_trace :
  instrument d = Some i ->
  (forall r, t_ask T h i (cmd_freq n_trace) = Done r ->
     get_freq T n_trace d h
       = (Ok (Some r), d, h ++ [EvAsk i (cmd_freq n_trace)])%list) /\
  (t_ask T h i (cmd_freq n_trace) = Fail DeviceError ->
     get_freq T n_trace d h
       = (Ok None, d, h ++ [EvAsk i (cmd_freq n_trace)])%list).
Proof.
  intros Hi. rewrite (get_freq_cases T d h i Hi).
  split; [intros r Hr|intros Hr]; now rewrite Hr.
Qed.

(** C6: the specification has [get_trace] and [get_freq] return null on any
    transport failure of their query.  On a link whose exchanges fail at
    socket level each of them sends its single query for trace 2 and then
    lets the [OSError] out instead of returning [None].  With a
    [Vxi11Exception] they return [None], and an empty reply comes back as
    the empty string. *)
Theorem get_trace_get_freq_socket_failure_escapes :
  get_trace (Scenario.silent SocketFailure) 2 Scenario.connected []
    = (Raise OSError, Scenario.connected,
       [EvAsk Scenario.vna ":CALC2:DATA? SDAT"]) /\
  get_freq (Scenario.silent SocketFailure) 2 Scenario.connected []
    = (Raise OSError, Scenario.connected,
       [EvAsk Scenario.vna ":SENSE2:FREQ:DATA?"]) /\
  get_trace (Scenario.silent DeviceError) 2 Scenario.connected []
    = (Ok None, Scenario.connected, [EvAsk Scenario.vna ":CALC2:DATA? SDAT"]) /\
  get_freq (Scenario.silent DeviceError) 2 Scenario.connected []
    = (Ok None, Scenario.connected, [EvAsk Scenario.vna ":SENSE2:FREQ:DATA?"]) /\
  get_trace (Scenario.device Scenario.anritsu_idn "3" "") 2
      Scenario.connected []
    = (Ok (Some ""), Scenario.connected,
       [EvAsk Scenario.vna ":CALC2:DATA? SDAT"]).
Proof. repeat split. Qed.

(* ===================================================================== *)
(** ** The sweep-setup handler *)
(* ===================================================================== *)

(** The handler turns a request down without touching the driver unless
    the point count is in 0..4000, the stop frequency is not negative and
    the start frequency is at most the stop frequency; otherwise it calls
    [set_frequency_sweep] and then [set_trace()]. *)
Lemma freq_sweep_setup_handler_cases T srv d h :
  freq_sweep_setup_handler T srv d h =
    if handler_accepts srv then
      bind (set_frequency_sweep T (freq_start srv) (freq_stop srv)
              (freq_points srv))
        (fun status => bind (set_trace_default T) (fun _ => ret status)) d h
    else (Ok false, d, h).
Proof.
  unfold freq_sweep_setup_handler, handler_accepts.
  destruct srv as [a b n]; cbn [freq_start freq_stop freq_points].
  rewrite Z.gtb_ltb, (Z.gtb_ltb a b), !Z.ltb_antisym.
  destruct (0 <=? n), (n <=? 4000), (0 <=? b), (a <=? b); reflexivity.
Qed.

Lemma spec_valid_sweep_accepted srv :
  spec_valid_sweep srv = true -> handler_accepts srv = true.
Proof.
  unfold spec_valid_sweep, handler_accepts.
  destruct (0 <=? freq_points srv), (freq_points srv <=? 4000),
    (0 <=? freq_start srv), (0 <=? freq_stop srv),
    (freq_start srv <=? freq_stop srv); cbn; congruence.
Qed.

(** C8: the specification has every request with a negative start frequency
    answered false without a call to the driver.  For start -5, stop 10
    and 100 points the handler calls the driver, which writes the negative
    start frequency to the device, and answers true.  The third test of
    the handler, commented as checking the start frequency against 0 and
    stop, compares the stop frequency with zero a second time. *)
Theorem freq_sweep_setup_handler_negative_start :
  let srv := {| freq_start := -5; freq_stop := 10; freq_points := 100 |} in
  spec_valid_sweep srv = false /\
  freq_sweep_setup_handler Scenario.anritsu srv Scenario.connected []
    = (Ok true, Scenario.connected,
       [EvWrite Scenario.vna ":SENS:FREQ:STAR -5";
        EvWrite Scenario.vna ":SENS:FREQ:STOP 10";
        EvWrite Scenario.vna ":SENS:SWE:POIN 100";
        EvWrite Scenario.vna ":SENS:TRACE1:SPAR S21";
        EvWrite Scenario.vna ":CALC1:FORM SMITh"]).
Proof. split; reflexivity. Qed.

(* ===================================================================== *)
(** ** Session state *)
(* ===================================================================== *)

(** C7: in every session state [test_connection] leaves the connected
    flag, the address and the handle as they were; when the session holds
    a handle it sends the identification query once, returns true for any
    reply and false for a failure of either class. *)
Theorem test_connection_reports_and_preserves T d h :
  session_of (test_connection T d h) = d /\
  forall i, instrument d = Some i ->
    history_of (test_connection T d h) = (h ++ [EvAsk i cmd_idn])%list /\
    (forall r, t_ask T h i cmd_idn = Done r ->
       result_of (test_connection T d h) = Ok true) /\
    (forall f, t_ask T h i cmd_idn = Fail f ->
       result_of (test_connection T d h) = Ok false).
Proof.
  split; [apply test_connection_frame|].
  intros i Hi. rewrite (test_connection_cases T d h i Hi).
  split; [reflexivity|].
  split; [intros r Hr|intros f Hr]; now rewrite Hr.
Qed.

Lemma test_connection_reports_and_preserves_witness :
  result_of (test_connection Scenario.anritsu Scenario.connected [])
    = Ok true /\
  result_of (test_connection (Scenario.silent SocketFailure)
               Scenario.connected []) = Ok false /\
  result_of (test_connection (Scenario.silent DeviceError)
               Scenario.connected []) = Ok false /\
  session_of (test_connection (Scenario.silent SocketFailure)
                Scenario.connected []) = Scenario.connected.
Proof.
  split; [|split; [|split]].
  - exact (proj1 (proj2 (proj2 (test_connection_reports_and_preserves
             Scenario.anritsu Scenario.connected []) Scenario.vna eq_refl))
             Scenario.anritsu_idn eq_refl).
  - exact (proj2 (proj2 (proj2 (test_connection_reports_and_preserves
             (Scenario.silent SocketFailure) Scenario.connected [])
             Scenario.vna eq_refl)) SocketFailure eq_refl).
  - exact (proj2 (proj2 (proj2 (test_connection_reports_and_preserves
             (Scenario.silent DeviceError) Scenario.connected [])
             Scenario.vna eq_refl)) DeviceError eq_refl).
  - exact (proj1 (test_connection_reports_and_preserves
             (Scenario.silent SocketFailure) Scenario.connected [])).
Defined.

(** C9: in every session state and for all arguments,
    [check_calibration_status], [set_frequency_sweep], [set_trace],
    [get_trace] and [get_freq] (and [test_connection] with them) leave the
    connected flag, the address and the handle as they were, whether they
    return or raise; the two remaining methods, [connect_to_vna] and
    [disconnect_from_vna], are the ones that change the session. *)
Theorem queries_and_setters_preserve_session T d h :
  session_of (check_calibration_status T d h) = d /\
  (forall f_start f_stop n_points,
     session_of (set_frequency_sweep T f_start f_stop n_points d h) = d) /\
  (forall n_trace s_param t_format,
     session_of (set_trace T n_trace s_param t_format d h) = d) /\
  (forall n_trace, session_of (get_trace T n_trace d h) = d) /\
  (forall n_trace, session_of (get_freq T n_trace d h) = d) /\
  session_of (test_connection T d h) = d /\
  session_of (connect_to_vna Scenario.anritsu "10.0.0.1" init [])
    = Scenario.connected /\
  session_of (disconnect_from_vna Scenario.anritsu Scenario.connected [])
    = init /\
  Scenario.connected <> init.
Proof.
  split; [apply check_calibration_status_frame|].
  split; [intros; apply set_frequency_sweep_frame|].
  split; [intros; apply set_trace_frame|].
  split; [intros; apply get_trace_frame|].
  split; [intros; apply get_freq_frame|].
  split; [apply test_connection_frame|].
  repeat split. discriminate.
Qed.

(** A close that fails: the exception leaves [disconnect_from_vna], which
    has no [try], before any attribute is reset. *)
Lemma disconnect_from_vna_close_fails T d h i f :
  instrument d = Some i -> vna_connected d = true ->
  t_close T h i = Fail f ->
  disconnect_from_vna T d h = (Raise (exn_of f), d, h ++ [EvClose i])%list.
Proof.
  intros Hi Hc Hf. now rewrite (disconnect_from_vna_cases T d h i Hi), Hc, Hf.
Qed.




(* ===================================================================== *)
(** ** Connecting *)
(* ===================================================================== *)

(** C3, as stated, fails: with the session already connected, a connect
    to a device that identifies itself as another make returns
    [(False, ...)] and leaves the connected flag set. *)
Lemma connect_to_vna_mismatch_keeps_flag :
  ~ (forall T d h ip_addr idn,
       t_open T h ip_addr = Done tt ->
       t_ask T (h ++ [EvOpen ip_addr])%list (mkInstrument ip_addr) cmd_idn
         = Done idn ->
       classify_identity idn <> Expected ->
       (exists msg,
          result_of (connect_to_vna T ip_addr d h) = Ok (false, msg)) /\
       vna_connected (session_of (connect_to_vna T ip_addr d h)) = false).
Proof.
  intros H.
  destruct (H Scenario.other Scenario.connected [] "10.0.0.2"
              Scenario.other_idn eq_refl eq_refl) as [_ Hflag].
  - discriminate.
  - discriminate Hflag.
Qed.

(** C3, amended: in every session state and for every address whose link
    opens and answers the identification query, [connect_to_vna] returns
    [(True, ...)] and leaves the session connected to the new handle with
    the address recorded when the reply, without its double quotes and
    split at the commas, starts with the fields Anritsu and MS2026C/2;
    when the first field is not Anritsu, or the second is present and not
    MS2026C/2, it returns [(False, ...)], stores the new handle and leaves
    the connected flag and the address as they were, so that a session
    that was disconnected stays disconnected. *)
Theorem connect_to_vna_identity T d h ip_addr idn :
  t_open T h ip_addr = Done tt ->
  t_ask T (h ++ [EvOpen ip_addr])%list (mkInstrument ip_addr) cmd_idn
    = Done idn ->
  (classify_identity idn = Expected ->
     result_of (connect_to_vna T ip_addr d h) = Ok (true, msg_connected) /\
     session_of (connect_to_vna T ip_addr d h)
       = {| instrument := Some (mkInstrument ip_addr);
            vna_connected := true; vna_ip := Some ip_addr |}) /\
  (classify_identity idn = Unexpected ->
     result_of (connect_to_vna T ip_addr d h) = Ok (false, msg_mismatch) /\
     session_of (connect_to_vna T ip_addr d h)
       = {| instrument := Some (mkInstrument ip_addr);
            vna_connected := vna_connected d; vna_ip := vna_ip d |} /\
     (vna_connected d = false ->
      vna_connected (session_of (connect_to_vna T ip_addr d h)) = false)).
Proof.
  intros Hopen Hask. rewrite connect_to_vna_cases. cbv zeta.
  rewrite Hopen, Hask.
  split; intros ->; repeat split. intros Hd. exact Hd.
Qed.

Lemma connect_to_vna_identity_witness :
  (connect_to_vna Scenario.anritsu "10.0.0.1" init []
     = (Ok (true, msg_connected), Scenario.connected,
        [EvOpen "10.0.0.1"; EvAsk Scenario.vna cmd_idn])) /\
  result_of (connect_to_vna Scenario.anritsu "10.0.0.1" init [])
    = Ok (true, msg_connected) /\
  result_of (connect_to_vna Scenario.other "10.0.0.1" init [])
    = Ok (false, msg_mismatch) /\
  vna_connected (session_of (connect_to_vna Scenario.other "10.0.0.1" init []))
    = false.
Proof.
  split; [reflexivity|]. split; [|split].
  - exact (proj1 (proj1 (connect_to_vna_identity Scenario.anritsu init []
             "10.0.0.1" Scenario.anritsu_idn eq_refl eq_refl) eq_refl)).
  - exact (proj1 (proj2 (connect_to_vna_identity Scenario.other init []
             "10.0.0.1" Scenario.other_idn eq_refl eq_refl) eq_refl)).
  - exact (proj2 (proj2 (proj2 (connect_to_vna_identity Scenario.other init []
             "10.0.0.1" Scenario.other_idn eq_refl eq_refl) eq_refl))
             eq_refl).
Defined.

(** The identity of the instrument may come in double quotes. *)
Example classify_identity_examples :
  classify_identity Scenario.anritsu_idn = Expected /\
  classify_identity
    (String PyStr.dquote ("Anritsu,MS2026C/2,1,2" ++ String PyStr.dquote ""))
    = Expected /\
  classify_identity Scenario.other_idn = Unexpected /\
  classify_identity "Anritsu,MS2026C" = Unexpected /\
  classify_identity "Anritsu" = Truncated /\
  classify_identity "" = Unexpected.
Proof. repeat split. Qed.

(* ===================================================================== *)
(** ** Exceptions that leave the driver *)
(* ===================================================================== *)




(* ===================================================================== *)
(** ** More on the text primitives *)
(* ===================================================================== *)

Module TextFacts.
Import PyStr.

Lemma list_of_append (a b : string) :
  list_ascii_of_string (a ++ b)
    = (list_ascii_of_string a ++ list_ascii_of_string b)%list.
Proof. induction a as [|c a IH]; cbn; [reflexivity|now rewrite IH]. Qed.

Lemma list_of_string_inj (a b : string) :
  list_ascii_of_string a = list_ascii_of_string b -> a = b.
Proof.
  intros H. rewrite <- (string_of_list_ascii_of_string a),
    <- (string_of_list_ascii_of_string b). now rewrite H.
Qed.

Lemma append_cancel_l (p a b : string) : p ++ a = p ++ b -> a = b.
Proof.
  intros H. apply list_of_string_inj.
  apply (f_equal list_ascii_of_string) in H.
  rewrite !list_of_append in H. now apply app_inv_head in H.
Qed.

Lemma append_cancel_r (s a b : string) : a ++ s = b ++ s -> a = b.
Proof.
  intros H. apply list_of_string_inj.
  apply (f_equal list_ascii_of_string) in H.
  rewrite !list_of_append in H. now apply app_inv_tail in H.
Qed.

Lemma str_inj (a b : Z) : str a = str b -> a = b.
Proof.
  intros H. apply (f_equal int) in H.
  rewrite !PyStrFacts.int_str in H. now injection H.
Qed.

Lemma remove_char_append c (a b : string) :
  remove_char c (a ++ b) = remove_char c a ++ remove_char c b.
Proof.
  induction a as [|x a IH]; cbn; [reflexivity|].
  destruct (Ascii.eqb x c); cbn; now rewrite IH.
Qed.

Lemma remove_char_idem c (s : string) :
  remove_char c (remove_char c s) = remove_char c s.
Proof.
  induction s as [|x s IH]; cbn; [reflexivity|].
  destruct (Ascii.eqb x c) eqn:E; cbn; [exact IH|].
  now rewrite E, IH.
Qed.

Lemma split_nonempty sep s : split sep s <> [].
Proof.
  destruct s as [|a r]; cbn; [discriminate|].
  destruct (Ascii.eqb a sep); [discriminate|].
  destruct (split sep r); discriminate.
Qed.

(** A text splits into one field exactly when it has no separator, and
    the field is then the text. *)
Lemma split_single sep s x :
  split sep s = [x] <-> s = x /\ contains sep s = false.
Proof.
  revert x. induction s as [|a r IH]; intros x; cbn.
  - split; [intros [= <-]; auto|intros [<- _]; reflexivity].
  - destruct (Ascii.eqb a sep) eqn:E; cbn.
    + split; [|intros [_ H]; discriminate H].
      intros H. injection H as _ H. now destruct (split_nonempty sep r).
    + destruct (split sep r) as [|f fs] eqn:Es.
      * now destruct (split_nonempty sep r).
      * split.
        -- intros H. injection H as <- ->.
           destruct (proj1 (IH f) eq_refl) as [-> Hc]. auto.
        -- intros [<- Hc].
           destruct (IH r) as [_ Hback].
           specialize (Hback (conj eq_refl Hc)).
           now injection Hback as -> ->.
Qed.

End TextFacts.

(* ===================================================================== *)
(** ** What the setters send *)
(* ===================================================================== *)

(** X1: on a session that holds a handle, [set_trace] sends the
    S-parameter command and, only if that one is accepted, the format
    command, both for the trace number given; it returns [True] exactly
    when both are accepted and [False] exactly when the first refusal is a
    [Vxi11Exception]. *)
Theorem set_trace_writes_in_order T d h i n_trace s_param t_format :
  instrument d = Some i ->
  let c1 := cmd_spar n_trace s_param in
  let c2 := cmd_form n_trace t_format in
  let r1 := t_write T h i c1 in
  let r2 := t_write T (h ++ [EvWrite i c1])%list i c2 in
  history_of (set_trace T n_trace s_param t_format d h)
    = (h ++ EvWrite i c1 ::
         match r1 with Done _ => [EvWrite i c2] | Fail _ => [] end)%list /\
  (result_of (set_trace T n_trace s_param t_format d h) = Ok true <->
     r1 = Done tt /\ r2 = Done tt) /\
  (result_of (set_trace T n_trace s_param t_format d h) = Ok false <->
     r1 = Fail DeviceError \/ (r1 = Done tt /\ r2 = Fail DeviceError)).
Proof.
  intros Hi c1 c2 r1 r2. subst c1 c2 r1 r2.
  rewrite (set_trace_cases T d h i Hi). cbv zeta.
  destruct (t_write T h i (cmd_spar n_trace s_param)) as [[]|[|]];
    [destruct (t_write T _ i (cmd_form n_trace t_format)) as [[]|[|]]| |];
    unfold result_of, history_of; cbn [fst snd];
    (split; [reflexivity|]); split; split;
    try (intros H; discriminate H);
    try (intros [H1 H2]; discriminate);
    try (intros [H|[H1 H2]]; discriminate);
    auto.
Qed.

Lemma set_trace_writes_in_order_witness :
  history_of (set_trace Scenario.anritsu 3 "S11" "LMAG" Scenario.connected [])
    = [EvWrite Scenario.vna ":SENS:TRACE3:SPAR S11";
       EvWrite Scenario.vna ":CALC3:FORM LMAG"] /\
  result_of (set_trace (Scenario.silent DeviceError) 3 "S11" "LMAG"
               Scenario.connected []) = Ok false.
Proof.
  split.
  - exact (proj1 (set_trace_writes_in_order Scenario.anritsu
             Scenario.connected [] Scenario.vna 3 "S11" "LMAG" eq_refl)).
  - apply (proj2 (proj2 (set_trace_writes_in_order
             (Scenario.silent DeviceError) Scenario.connected []
             Scenario.vna 3 "S11" "LMAG" eq_refl))).
    left. reflexivity.
Defined.

(** X2: on a session that holds a handle, [set_frequency_sweep] sends the
    start command, then the stop command if the start was accepted, then
    the point count if both were; it sends nothing else.  It returns
    [False] exactly when the first refused write was refused with a
    [Vxi11Exception]. *)
Theorem set_frequency_sweep_stops_at_first_refusal
    T d h i f_start f_stop n_points :
  instrument d = Some i ->
  let w1 := EvWrite i (cmd_start f_start) in
  let w2 := EvWrite i (cmd_stop f_stop) in
  let w3 := EvWrite i (cmd_points n_points) in
  let r1 := t_write T h i (cmd_start f_start) in
  let r2 := t_write T (h ++ [w1])%list i (cmd_stop f_stop) in
  let r3 := t_write T (h ++ [w1; w2])%list i (cmd_points n_points) in
  history_of (set_frequency_sweep T f_start f_stop n_points d h)
    = (h ++ w1 ::
         match r1 with
         | Fail _ => []
         | Done _ => w2 :: match r2 with Fail _ => [] | Done _ => [w3] end
         end)%list /\
  (result_of (set_frequency_sweep T f_start f_stop n_points d h) = Ok false
   <-> r1 = Fail DeviceError \/
       (r1 = Done tt /\ r2 = Fail DeviceError) \/
       (r1 = Done tt /\ r2 = Done tt /\ r3 = Fail DeviceError)).
Proof.
  intros Hi w1 w2 w3 r1 r2 r3. subst w1 w2 w3 r1 r2 r3.
  rewrite (set_frequency_sweep_cases T d h i Hi). cbv zeta.
  destruct (t_write T h i (cmd_start f_start)) as [[]|[|]];
    [destruct (t_write T _ i (cmd_stop f_stop)) as [[]|[|]];
     [destruct (t_write T _ i (cmd_points n_points)) as [[]|[|]]| |]| |];
    unfold result_of, history_of; cbn [fst snd];
    (split; [reflexivity|]); split;
    try (intros H; discriminate H);
    try (intros [H|[[H1 H2]|(H1 & H2 & H3)]]; discriminate);
    auto 6.
Qed.

Lemma set_frequency_sweep_stops_at_first_refusal_witness :
  history_of (set_frequency_sweep (Scenario.failing_from 1 DeviceError)
                100 200 10 Scenario.connected [])
    = [EvWrite Scenario.vna ":SENS:FREQ:STAR 100";
       EvWrite Scenario.vna ":SENS:FREQ:STOP 200"] /\
  result_of (set_frequency_sweep (Scenario.failing_from 1 DeviceError)
               100 200 10 Scenario.connected []) = Ok false.
Proof.
  split.
  - exact (proj1 (set_frequency_sweep_stops_at_first_refusal
             (Scenario.failing_from 1 DeviceError) Scenario.connected []
             Scenario.vna 100 200 10 eq_refl)).
  - apply (proj2 (set_frequency_sweep_stops_at_first_refusal
             (Scenario.failing_from 1 DeviceError) Scenario.connected []
             Scenario.vna 100 200 10 eq_refl)).
    right. left. split; reflexivity.
Defined.

(** X3: the commands carry their numeric argument without loss: two
    sweep commands of one kind, or two data or frequency queries, are
    equal only if the numbers they were built from are equal. *)
Theorem commands_determine_their_arguments (a b : Z) :
  (cmd_start a = cmd_start b -> a = b) /\
  (cmd_stop a = cmd_stop b -> a = b) /\
  (cmd_points a = cmd_points b -> a = b) /\
  (cmd_data a = cmd_data b -> a = b) /\
  (cmd_freq a = cmd_freq b -> a = b).
Proof.
  unfold cmd_start, cmd_stop, cmd_points, cmd_data, cmd_freq.
  repeat split; intros H; apply TextFacts.append_cancel_l in H;
    try apply TextFacts.append_cancel_r in H;
    now apply TextFacts.str_inj.
Qed.

Lemma commands_determine_their_arguments_witness :
  cmd_start 100 = cmd_start 100 /\ 100 = 100.
Proof.
  split; [reflexivity|].
  exact (proj1 (commands_determine_their_arguments 100 100) eq_refl).
Defined.

(* ===================================================================== *)
(** ** More on connecting *)
(* ===================================================================== *)

(** X4: [connect_to_vna] returns [True] exactly when the link opens, the
    identification query is answered and the answer carries the expected
    manufacturer and model; the connected flag is set by the call exactly
    in that case, and otherwise keeps its value. *)
Theorem connect_to_vna_true_iff T d h ip_addr :
  let reply :=
    t_ask T (h ++ [EvOpen ip_addr])%list (mkInstrument ip_addr) cmd_idn in
  let accepted :=
    t_open T h ip_addr = Done tt /\
    exists idn, reply = Done idn /\ classify_identity idn = Expected in
  ((exists msg, result_of (connect_to_vna T ip_addr d h) = Ok (true, msg))
   <-> accepted) /\
  (accepted ->
   connect_to_vna T ip_addr d h
     = (Ok (true, msg_connected),
        {| instrument := Some (mkInstrument ip_addr); vna_connected := true;
           vna_ip := Some ip_addr |},
        h ++ [EvOpen ip_addr; EvAsk (mkInstrument ip_addr) cmd_idn])%list) /\
  (~ accepted ->
   vna_connected (session_of (connect_to_vna T ip_addr d h))
     = vna_connected d /\
   vna_ip (session_of (connect_to_vna T ip_addr d h)) = vna_ip d).
Proof.
  intros reply accepted. subst reply accepted.
  rewrite connect_to_vna_cases. cbv zeta.
  destruct (t_open T h ip_addr) as [[]|[|]].
  - destruct (t_ask T _ _ cmd_idn) as [idn|[|]].
    + destruct (classify_identity idn) eqn:Ec.
      * split; [split|split].
        -- intros _. split; [reflexivity|]. now exists idn.
        -- intros _. now exists msg_connected.
        -- reflexivity.
        -- intros Hn. destruct Hn. split; [reflexivity|]. now exists idn.
      * split; [split|split].
        -- intros [msg Hm]. discriminate Hm.
        -- intros [_ (idn' & [= <-] & Hc)]. congruence.
        -- intros [_ (idn' & [= <-] & Hc)]. congruence.
        -- intros _. split; reflexivity.
      * split; [split|split].
        -- intros [msg Hm]. discriminate Hm.
        -- intros [_ (idn' & [= <-] & Hc)]. congruence.
        -- intros [_ (idn' & [= <-] & Hc)]. congruence.
        -- intros _. split; reflexivity.
    + split; [split|split].
      * intros [msg Hm]. discriminate Hm.
      * intros [_ (idn' & Hd & _)]. discriminate Hd.
      * intros [_ (idn' & Hd & _)]. discriminate Hd.
      * intros _. split; reflexivity.
    + split; [split|split].
      * intros [msg Hm]. discriminate Hm.
      * intros [_ (idn' & Hd & _)]. discriminate Hd.
      * intros [_ (idn' & Hd & _)]. discriminate Hd.
      * intros _. split; reflexivity.
  - split; [split|split].
    + intros [msg Hm]. discriminate Hm.
    + intros [Hd _]. discriminate Hd.
    + intros [Hd _]. discriminate Hd.
    + intros _. split; reflexivity.
  - split; [split|split].
    + intros [msg Hm]. discriminate Hm.
    + intros [Hd _]. discriminate Hd.
    + intros [Hd _]. discriminate Hd.
    + intros _. split; reflexivity.
Qed.

Lemma connect_to_vna_true_iff_witness :
  (t_open Scenario.anritsu [] "10.0.0.1" = Done tt /\
   exists idn,
     t_ask Scenario.anritsu [EvOpen "10.0.0.1"] Scenario.vna cmd_idn
       = Done idn /\ classify_identity idn = Expected) /\
  connect_to_vna Scenario.anritsu "10.0.0.1" init []
    = (Ok (true, msg_connected), Scenario.connected,
       [EvOpen "10.0.0.1"; EvAsk Scenario.vna cmd_idn]).
Proof.
  assert (Hacc : t_open Scenario.anritsu [] "10.0.0.1" = Done tt /\
            exists idn,
              t_ask Scenario.anritsu [EvOpen "10.0.0.1"] Scenario.vna cmd_idn
                = Done idn /\ classify_identity idn = Expected).
  { split; [reflexivity|]. exists Scenario.anritsu_idn. split; reflexivity. }
  split; [exact Hacc|].
  exact (proj1 (proj2 (connect_to_vna_true_iff Scenario.anritsu init []
                         "10.0.0.1")) Hacc).
Defined.

(** X5: how [connect_to_vna] ends when the link fails.  A socket failure
    while opening gives [(False, "VNA connection error!")] and leaves the
    whole session, handle included, as it was.  A socket failure of the
    identification query gives the same answer with the new handle stored
    and flag and address kept.  A [Vxi11Exception] at either step is not
    caught and leaves the method.  No link failure is ever answered with
    the identity-mismatch message. *)
Theorem connect_to_vna_link_failure T d h ip_addr :
  let i := mkInstrument ip_addr in
  let h1 := (h ++ [EvOpen ip_addr])%list in
  let d1 := {| instrument := Some i; vna_connected := vna_connected d;
               vna_ip := vna_ip d |} in
  (t_open T h ip_addr = Fail SocketFailure ->
   connect_to_vna T ip_addr d h = (Ok (false, msg_conn_error), d, h1)) /\
  (t_open T h ip_addr = Fail DeviceError ->
   connect_to_vna T ip_addr d h = (Raise Vxi11Exception, d, h1)) /\
  (t_open T h ip_addr = Done tt ->
   t_ask T h1 i cmd_idn = Fail SocketFailure ->
   connect_to_vna T ip_addr d h
     = (Ok (false, msg_conn_error), d1, h1 ++ [EvAsk i cmd_idn])%list) /\
  (t_open T h ip_addr = Done tt ->
   t_ask T h1 i cmd_idn = Fail DeviceError ->
   connect_to_vna T ip_addr d h
     = (Raise Vxi11Exception, d1, h1 ++ [EvAsk i cmd_idn])%list) /\
  (result_of (connect_to_vna T ip_addr d h) = Ok (false, msg_mismatch) ->
   exists idn, t_ask T h1 i cmd_idn = Done idn /\
               classify_identity idn = Unexpected).
Proof.
  intros i h1 d1. subst i h1 d1.
  rewrite connect_to_vna_cases. cbv zeta.
  replace (h ++ [EvOpen ip_addr; EvAsk (mkInstrument ip_addr) cmd_idn])%list
    with ((h ++ [EvOpen ip_addr]) ++ [EvAsk (mkInstrument ip_addr) cmd_idn])%list
    by (now rewrite <- app_assoc).
  split; [intros ->; reflexivity|].
  split; [intros ->; reflexivity|].
  split; [intros -> ->; reflexivity|].
  split; [intros -> ->; reflexivity|].
  destruct (t_open T h ip_addr) as [[]|[|]]; try (intros H; discriminate H).
  destruct (t_ask T _ _ cmd_idn) as [idn|[|]]; try (intros H; discriminate H).
  destruct (classify_identity idn) eqn:Ec; intros H; try discriminate H.
  now exists idn.
Qed.

Lemma connect_to_vna_link_failure_witness :
  connect_to_vna (Scenario.broken SocketFailure) "10.0.0.1" init []
    = (Ok (false, msg_conn_error), init, [EvOpen "10.0.0.1"]) /\
  connect_to_vna (Scenario.silent DeviceError) "10.0.0.1" init []
    = (Raise Vxi11Exception,
       {| instrument := Some Scenario.vna; vna_connected := false;
          vna_ip := None |},
       [EvOpen "10.0.0.1"; EvAsk Scenario.vna cmd_idn]).
Proof.
  split.
  - exact (proj1 (connect_to_vna_link_failure (Scenario.broken SocketFailure)
             init [] "10.0.0.1") eq_refl).
  - exact (proj1 (proj2 (proj2 (proj2 (connect_to_vna_link_failure
             (Scenario.silent DeviceError) init [] "10.0.0.1"))))
             eq_refl eq_refl).
Defined.

(** X6: double quotes do not count, wherever they stand in the identity:
    an identity and the same identity with its quotes removed, or wrapped
    in a pair of quotes, are judged alike.  The second field is missing,
    and [IndexError] leaves [connect_to_vna], exactly when the identity
    without its quotes is the single word Anritsu. *)
Theorem identity_quotes_and_missing_model (idn : string) :
  classify_identity (PyStr.remove_char PyStr.dquote idn)
    = classify_identity idn /\
  classify_identity
    (String PyStr.dquote (idn ++ String PyStr.dquote EmptyString))
    = classify_identity idn /\
  (classify_identity idn = Truncated <->
   PyStr.remove_char PyStr.dquote idn = "Anritsu") /\
  (forall T d h ip_addr,
     t_open T h ip_addr = Done tt ->
     t_ask T (h ++ [EvOpen ip_addr])%list (mkInstrument ip_addr) cmd_idn
       = Done idn ->
     (result_of (connect_to_vna T ip_addr d h) = Raise IndexError <->
      PyStr.remove_char PyStr.dquote idn = "Anritsu")).
Proof.
  assert (Hq : classify_identity (PyStr.remove_char PyStr.dquote idn)
               = classify_identity idn).
  { unfold classify_identity, identity_fields.
    now rewrite TextFacts.remove_char_idem. }
  assert (Hw : classify_identity
                 (String PyStr.dquote (idn ++ String PyStr.dquote EmptyString))
               = classify_identity idn).
  { unfold classify_identity, identity_fields.
    change (String PyStr.dquote (idn ++ String PyStr.dquote EmptyString))
      with (String PyStr.dquote EmptyString
              ++ (idn ++ String PyStr.dquote EmptyString)).
    rewrite !TextFacts.remove_char_append.
    change (PyStr.remove_char PyStr.dquote (String PyStr.dquote EmptyString))
      with EmptyString.
    cbn [append].
    replace (PyStr.remove_char PyStr.dquote idn ++ EmptyString)
      with (PyStr.remove_char PyStr.dquote idn); [reflexivity|].
    generalize (PyStr.remove_char PyStr.dquote idn) as s.
    induction s as [|c s IH]; cbn; [reflexivity|now rewrite <- IH]. }
  assert (Ht : classify_identity idn = Truncated <->
               PyStr.remove_char PyStr.dquote idn = "Anritsu").
  { unfold classify_identity, identity_fields.
    set (s := PyStr.remove_char PyStr.dquote idn).
    destruct (PyStr.split "," s) as [|m rest] eqn:Es.
    - now destruct (TextFacts.split_nonempty "," s).
    - destruct (String.eqb_spec m "Anritsu") as [->|Hm].
      + destruct rest as [|model rest].
        * split; [intros _|reflexivity].
          now apply (TextFacts.split_single "," s "Anritsu").
        * split.
          -- destruct (String.eqb model "MS2026C/2"); intros H; discriminate H.
          -- intros Hs. rewrite Hs in Es. discriminate Es.
      + split; [intros H; discriminate H|].
        intros Hs. rewrite Hs in Es. injection Es as <- _. now destruct Hm. }
  split; [exact Hq|]. split; [exact Hw|]. split; [exact Ht|].
  intros T d h ip_addr Hopen Hask.
  rewrite connect_to_vna_cases. cbv zeta. rewrite Hopen, Hask.
  rewrite <- Ht.
  destruct (classify_identity idn); split; intros H;
    try discriminate H; reflexivity.
Qed.

Lemma identity_quotes_and_missing_model_witness :
  result_of (connect_to_vna (Scenario.device "Anritsu" "3" "")
               "10.0.0.1" init []) = Raise IndexError.
Proof.
  apply (proj2 (proj2 (proj2 (identity_quotes_and_missing_model "Anritsu")))
           (Scenario.device "Anritsu" "3" "") init [] "10.0.0.1"
           eq_refl eq_refl).
  reflexivity.
Defined.

(* ===================================================================== *)
(** ** Sessions and histories *)
(* ===================================================================== *)

(** A call only adds exchanges to the history. *)
Lemma run_call_extends T c d h :
  exists evs, snd (run_call T c d h) = (h ++ evs)%list.
Proof.
  destruct c as [a| | | | | | |]; unfold run_call, after, history_of;
    cbn [snd].
  - rewrite connect_to_vna_cases. cbv zeta.
    destruct (t_open T h a) as [[]|[|]];
      try (eexists; reflexivity).
    destruct (t_ask T _ _ cmd_idn) as [idn|[|]];
      try destruct (classify_identity idn); eexists; reflexivity.
  - unfold disconnect_from_vna, bind, get_attr, close, set_vna_connected,
      set_vna_ip, set_instrument, ret.
    destruct (vna_connected d);
      [destruct (instrument d) as [i|]; [destruct (t_close T h i) as [[]|f]|]|];
      cbn; solve [eexists; reflexivity | exists []; now rewrite app_nil_r].
  - destruct (instrument d) as [i|] eqn:Hi.
    + rewrite (test_connection_cases T d h i Hi). eexists; reflexivity.
    + rewrite (proj1 (no_handle_raises T d h Hi)).
      exists []. now rewrite app_nil_r.
  - destruct (instrument d) as [i|] eqn:Hi.
    + rewrite (check_calibration_status_cases T d h i Hi).
      eexists; reflexivity.
    + destruct (no_handle_raises T d h Hi) as (_ & H & _). rewrite H.
      exists []. now rewrite app_nil_r.
  - destruct (instrument d) as [i|] eqn:Hi.
    + rewrite (set_frequency_sweep_cases T d h i Hi). cbv zeta.
      split_replies; eexists; reflexivity.
    + destruct (no_handle_raises T d h Hi) as (_ & _ & H & _). rewrite H.
      exists []. now rewrite app_nil_r.
  - destruct (instrument d) as [i|] eqn:Hi.
    + rewrite (set_trace_cases T d h i Hi). cbv zeta.
      split_replies; eexists; reflexivity.
    + destruct (no_handle_raises T d h Hi) as (_ & _ & _ & H & _). rewrite H.
      exists []. now rewrite app_nil_r.
  - destruct (instrument d) as [i|] eqn:Hi.
    + rewrite (get_trace_cases T d h i Hi). eexists; reflexivity.
    + destruct (no_handle_raises T d h Hi) as (_ & _ & _ & _ & H & _).
      rewrite H. exists []. now rewrite app_nil_r.
  - destruct (instrument d) as [i|] eqn:Hi.
    + rewrite (get_freq_cases T d h i Hi). eexists; reflexivity.
    + destruct (no_handle_raises T d h Hi) as (_ & _ & _ & _ & _ & H).
      rewrite H. exists []. now rewrite app_nil_r.
Qed.

(** Calls other than connect and disconnect leave the session alone. *)
Lemma run_call_frame T c d h :
  (forall a, c <> CallConnect a) -> c <> CallDisconnect ->
  fst (run_call T c d h) = d.
Proof.
  intros Hc Hd. destruct c as [a| | | | | | |]; unfold run_call, after;
    cbn [fst].
  - now destruct (Hc a).
  - now destruct Hd.
  - apply test_connection_frame.
  - apply check_calibration_status_frame.
  - apply set_frequency_sweep_frame.
  - apply set_trace_frame.
  - apply get_trace_frame.
  - apply get_freq_frame.
Qed.

Lemma session_invariant_init : session_invariant init [].
Proof.
  unfold session_invariant; cbn. repeat split; try discriminate.
  intros H. now destruct H.
Qed.

Lemma session_invariant_weaken d h evs :
  session_invariant d h -> session_invariant d (h ++ evs)%list.
Proof.
  intros (H1 & H2 & H3 & H4). repeat split; try apply H1; try exact H2.
  - intros i Hi. apply in_or_app. left. now apply H3.
  - intros a Ha. apply in_or_app. left. now apply H4.
Qed.

Lemma run_call_keeps_session_invariant T c d h :
  session_invariant d h ->
  session_invariant (fst (run_call T c d h)) (snd (run_call T c d h)).
Proof.
  intros Hinv.
  destruct c as [a| | | | | | |];
    try (match goal with
         | |- session_invariant (fst (run_call T ?c d h)) _ =>
             destruct (run_call_extends T c d h) as [evs Hevs];
             rewrite Hevs, run_call_frame by (intros; discriminate);
             now apply session_invariant_weaken
         end).
  - unfold run_call, after, session_of, history_of.
    rewrite connect_to_vna_cases. cbv zeta.
    destruct Hinv as (H1 & H2 & H3 & H4).
    assert (Hopen : forall evs, In (EvOpen a) ((h ++ EvOpen a :: evs)%list))
      by (intros; apply in_or_app; right; now left).
    destruct (t_open T h a) as [[]|[|]]; cbn [fst snd].
    + destruct (t_ask T _ _ cmd_idn) as [idn|[|]];
        try destruct (classify_identity idn); cbn [fst snd];
        unfold session_invariant; cbn [instrument vna_connected vna_ip host];
        (split; [first [exact H1 | split; [discriminate|reflexivity]]|]);
        (split; [discriminate|]);
        (split; [intros i [= <-]; apply Hopen|]);
        intros b Hb; first [injection Hb as <-; apply Hopen
                           | apply in_or_app; left; now apply H4].
    + now apply session_invariant_weaken.
    + now apply session_invariant_weaken.
  - unfold run_call, after, session_of, history_of.
    assert (Hf : flag_has_handle d).
    { destruct Hinv as (H1 & H2 & _). split; [exact H2|].
      intros Hc. destruct (vna_ip d) eqn:E; [|reflexivity].
      assert (Ht : vna_connected d = true) by (apply H1; discriminate).
      congruence. }
    rewrite (disconnect_from_vna_result T d h Hf).
    assert (Hinit : forall h', session_invariant init h').
    { intros h'. unfold session_invariant; cbn.
      repeat split; try discriminate. intros H. now destruct H. }
    destruct (instrument d) as [i|]; [|apply Hinit].
    destruct (vna_connected d) eqn:Ec; [|apply Hinit].
    destruct (t_close T h i) as [[]|f]; cbn [fst snd]; [apply Hinit|].
    now apply session_invariant_weaken.
Qed.

Lemma reachable_session_invariant T d h :
  reachable T d h -> session_invariant d h.
Proof.
  induction 1 as [|c d h d' h' _ IH Hrun].
  - exact session_invariant_init.
  - change d' with (fst (d', h')). change h' with (snd (d', h')) at 2.
    rewrite <- Hrun. now apply run_call_keeps_session_invariant.
Qed.

(** X7: in every state a driver object can reach, an address is stored
    exactly while the connected flag is set, the flag is only set while a
    handle is held, a driver without a handle is in its initial state, and
    the handle and the stored address each come from an [Instrument(...)]
    call recorded in the history. *)
Theorem reachable_sessions_are_consistent T d h :
  reachable T d h ->
  (vna_connected d = true <-> vna_ip d <> None) /\
  (vna_connected d = true -> instrument d <> None) /\
  (instrument d = None -> d = init) /\
  (forall i, instrument d = Some i -> In (EvOpen (host i)) h) /\
  (forall a, vna_ip d = Some a -> In (EvOpen a) h).
Proof.
  intros Hreach.
  destruct (reachable_session_invariant T d h Hreach) as (H1 & H2 & H3 & H4).
  repeat split; try apply H1; try exact H2; try exact H3; try exact H4.
  intros Hn. destruct d as [ins flag ip]. cbn in *. subst ins.
  destruct flag.
  - now destruct (H2 eq_refl).
  - destruct ip as [a|]; [|reflexivity].
    assert (Ht : false = true) by (apply H1; discriminate). discriminate Ht.
Qed.

Lemma reachable_sessions_are_consistent_witness :
  reachable Scenario.anritsu Scenario.connected
    [EvOpen "10.0.0.1"; EvAsk Scenario.vna cmd_idn] /\
  (vna_connected Scenario.connected = true <->
   vna_ip Scenario.connected <> None).
Proof.
  assert (Hreach : reachable Scenario.anritsu Scenario.connected
            [EvOpen "10.0.0.1"; EvAsk Scenario.vna cmd_idn]).
  { apply (reach_call Scenario.anritsu (CallConnect "10.0.0.1") init []);
      [apply reach_init|reflexivity]. }
  split; [exact Hreach|].
  exact (proj1 (reachable_sessions_are_consistent Scenario.anritsu _ _ Hreach)).
Defined.

(** X8: once [disconnect_from_vna] has returned on a reachable driver
    object, every query and every setter raises [AttributeError], which
    no [except] clause names, and nothing is sent to the instrument; the
    session stays disconnected. *)
Theorem calls_after_disconnect_raise T d h :
  reachable T d h ->
  returns (disconnect_from_vna T d h) ->
  let d1 := session_of (disconnect_from_vna T d h) in
  let h1 := history_of (disconnect_from_vna T d h) in
  test_connection T d1 h1 = (Raise AttributeError, init, h1) /\
  check_calibration_status T d1 h1 = (Raise AttributeError, init, h1) /\
  (forall a b n,
     set_frequency_sweep T a b n d1 h1 = (Raise AttributeError, init, h1)) /\
  (forall n s f, set_trace T n s f d1 h1 = (Raise AttributeError, init, h1)) /\
  (forall n, get_trace T n d1 h1 = (Raise AttributeError, init, h1)) /\
  (forall n, get_freq T n d1 h1 = (Raise AttributeError, init, h1)).
Proof.
  intros Hreach [v Hv] d1 h1. subst d1 h1.
  assert (Hd : session_of (disconnect_from_vna T d h) = init).
  { rewrite (disconnect_from_vna_result T d h
               (reachable_flag_has_handle T d h Hreach)) in *.
    destruct (instrument d) as [i|]; [|reflexivity].
    destruct (vna_connected d); [|reflexivity].
    destruct (t_close T h i) as [[]|f]; [reflexivity|discriminate Hv]. }
  rewrite Hd. now apply no_handle_raises.
Qed.

Lemma calls_after_disconnect_raise_witness :
  reachable Scenario.anritsu Scenario.connected
    [EvOpen "10.0.0.1"; EvAsk Scenario.vna cmd_idn] /\
  returns (disconnect_from_vna Scenario.anritsu Scenario.connected
             [EvOpen "10.0.0.1"; EvAsk Scenario.vna cmd_idn]) /\
  get_trace Scenario.anritsu 1 init
    [EvOpen "10.0.0.1"; EvAsk Scenario.vna cmd_idn; EvClose Scenario.vna]
    = (Raise AttributeError, init,
       [EvOpen "10.0.0.1"; EvAsk Scenario.vna cmd_idn; EvClose Scenario.vna]).
Proof.
  assert (Hreach : reachable Scenario.anritsu Scenario.connected
            [EvOpen "10.0.0.1"; EvAsk Scenario.vna cmd_idn]).
  { apply (reach_call Scenario.anritsu (CallConnect "10.0.0.1") init []);
      [apply reach_init|reflexivity]. }
  assert (Hret : returns (disconnect_from_vna Scenario.anritsu
                            Scenario.connected
                            [EvOpen "10.0.0.1"; EvAsk Scenario.vna cmd_idn]))
    by (exists true; reflexivity).
  split; [exact Hreach|]. split; [exact Hret|].
  destruct (calls_after_disconnect_raise Scenario.anritsu _ _ Hreach Hret)
    as (_ & _ & _ & _ & H & _).
  exact (H 1).
Defined.

(** Closes a goal about a call that sent nothing. *)
Ltac no_events :=
  exists []; rewrite app_nil_r; cbn [List.length In];
  repeat split; try lia; try contradiction; intros ? ? [[]|[]].

(** X9: what a single call may add to the history.  Only
    [connect_to_vna] creates an instrument object, and only for the
    address it was given; only [disconnect_from_vna] closes one, and only
    the handle held while the connected flag is set; in particular a
    connect on a session that already holds a handle never closes it.
    Every query or write goes to the handle that is held when the call
    ends, and no call makes more than three exchanges. *)
Theorem calls_add_only_their_own_exchanges T c d h :
  exists evs,
    snd (run_call T c d h) = (h ++ evs)%list /\
    (List.length evs <= 3)%nat /\
    (forall a, In (EvOpen a) evs -> c = CallConnect a) /\
    (forall i, In (EvClose i) evs ->
       c = CallDisconnect /\ instrument d = Some i /\
       vna_connected d = true) /\
    (forall i cmd, In (EvAsk i cmd) evs \/ In (EvWrite i cmd) evs ->
       instrument (fst (run_call T c d h)) = Some i).
Proof.
  destruct c as [a| | | | | | |]; unfold run_call, after, session_of,
    history_of; cbn [fst snd].
  - rewrite connect_to_vna_cases. cbv zeta.
    destruct (t_open T h a) as [[]|[|]];
      [destruct (t_ask T _ _ cmd_idn) as [idn|[|]];
       [destruct (classify_identity idn)| |]| |];
      cbn [fst snd]; eexists; (split; [reflexivity|]); cbn [List.length In];
      (split; [lia|]);
      (split; [intros b [[= <-]|H]; [reflexivity|];
               repeat (destruct H as [H|H]; try discriminate H);
               contradiction|]);
      (split; [intros i H;
               repeat (destruct H as [H|H]; try discriminate H);
               contradiction|]);
      intros i cmd [H|H];
      repeat (destruct H as [H|H]; try discriminate H);
      try contradiction; now injection H as <- _.
  - unfold disconnect_from_vna, bind, get_attr, close, set_vna_connected,
      set_vna_ip, set_instrument, ret.
    destruct (vna_connected d) eqn:Ec;
      [destruct (instrument d) as [i|] eqn:Ei;
       [destruct (t_close T h i) as [[]|f]|]|];
      cbn [fst snd instrument raise_reply]; try no_events;
      exists [EvClose i]; cbn [List.length In];
      (split; [reflexivity|]); (split; [lia|]);
      (split; [intros b [H|[]]; discriminate H|]);
      (split; [intros j [[= <-]|[]]; auto|]);
      intros j cmd [[H|[]]|[H|[]]]; discriminate H.
  - destruct (instrument d) as [i|] eqn:Hi.
    + rewrite (test_connection_cases T d h i Hi). cbn [fst snd].
      eexists; (split; [reflexivity|]); cbn [List.length In].
      split; [lia|].
      split; [intros b [H|[]]; discriminate H|].
      split; [intros j [H|[]]; discriminate H|].
      intros j cmd [[H|[]]|[H|[]]]; try discriminate H.
      now injection H as <- _.
    + rewrite (proj1 (no_handle_raises T d h Hi)). cbn [fst snd].
      no_events.
  - destruct (instrument d) as [i|] eqn:Hi.
    + rewrite (check_calibration_status_cases T d h i Hi). cbn [fst snd].
      eexists; (split; [reflexivity|]); cbn [List.length In].
      split; [lia|].
      split; [intros b [H|[]]; discriminate H|].
      split; [intros j [H|[]]; discriminate H|].
      intros j cmd [[H|[]]|[H|[]]]; try discriminate H.
      now injection H as <- _.
    + destruct (no_handle_raises T d h Hi) as (_ & H & _). rewrite H.
      cbn [fst snd]. no_events.
  - destruct (instrument d) as [i|] eqn:Hi.
    + rewrite (set_frequency_sweep_cases T d h i Hi). cbv zeta.
      split_replies; cbn [fst snd];
        eexists; (split; [reflexivity|]); cbn [List.length In];
        (split; [lia|]);
        (split; [intros b H;
                 repeat (destruct H as [H|H]; try discriminate H);
                 contradiction|]);
        (split; [intros j H;
                 repeat (destruct H as [H|H]; try discriminate H);
                 contradiction|]);
        intros j cmd [H|H];
        repeat (destruct H as [H|H]; try discriminate H);
        try contradiction; now injection H as <- _.
    + destruct (no_handle_raises T d h Hi) as (_ & _ & H & _). rewrite H.
      cbn [fst snd]. no_events.
  - destruct (instrument d) as [i|] eqn:Hi.
    + rewrite (set_trace_cases T d h i Hi). cbv zeta.
      split_replies; cbn [fst snd];
        eexists; (split; [reflexivity|]); cbn [List.length In];
        (split; [lia|]);
        (split; [intros b H;
                 repeat (destruct H as [H|H]; try discriminate H);
                 contradiction|]);
        (split; [intros j H;
                 repeat (destruct H as [H|H]; try discriminate H);
                 contradiction|]);
        intros j cmd [H|H];
        repeat (destruct H as [H|H]; try discriminate H);
        try contradiction; now injection H as <- _.
    + destruct (no_handle_raises T d h Hi) as (_ & _ & _ & H & _). rewrite H.
      cbn [fst snd]. no_events.
  - destruct (instrument d) as [i|] eqn:Hi.
    + rewrite (get_trace_cases T d h i Hi). cbn [fst snd].
      eexists; (split; [reflexivity|]); cbn [List.length In].
      split; [lia|].
      split; [intros b [H|[]]; discriminate H|].
      split; [intros j [H|[]]; discriminate H|].
      intros j cmd [[H|[]]|[H|[]]]; try discriminate H.
      now injection H as <- _.
    + destruct (no_handle_raises T d h Hi) as (_ & _ & _ & _ & H & _).
      rewrite H. cbn [fst snd]. no_events.
  - destruct (instrument d) as [i|] eqn:Hi.
    + rewrite (get_freq_cases T d h i Hi). cbn [fst snd].
      eexists; (split; [reflexivity|]); cbn [List.length In].
      split; [lia|].
      split; [intros b [H|[]]; discriminate H|].
      split; [intros j [H|[]]; discriminate H|].
      intros j cmd [[H|[]]|[H|[]]]; try discriminate H.
      now injection H as <- _.
    + destruct (no_handle_raises T d h Hi) as (_ & _ & _ & _ & _ & H).
      rewrite H. cbn [fst snd]. no_events.
Qed.

(* ===================================================================== *)
(** ** The service handlers *)
(* ===================================================================== *)

Lemma data_handlers_cases T d h i :
  instrument d = Some i ->
  get_vna_data_handler T d h =
    (match t_ask T h i ":CALC1:DATA? SDAT" with
     | Done text => Ok (true, text)
     | Fail DeviceError => Ok (false, "")
     | Fail SocketFailure => Raise OSError
     end, d, h ++ [EvAsk i ":CALC1:DATA? SDAT"])%list /\
  get_freq_data_handler T d h =
    (match t_ask T h i ":SENSE1:FREQ:DATA?" with
     | Done text => Ok (true, Some text)
     | Fail DeviceError => Ok (false, Some "")
     | Fail SocketFailure => Raise OSError
     end, d, h ++ [EvAsk i ":SENSE1:FREQ:DATA?"])%list.
Proof.
  intros Hi. unfold get_vna_data_handler, get_freq_data_handler, bind.
  rewrite (get_trace_cases T d h i Hi), (get_freq_cases T d h i Hi).
  change (cmd_data 1) with ":CALC1:DATA? SDAT".
  change (cmd_freq 1) with ":SENSE1:FREQ:DATA?".
  split.
  - destruct (t_ask T h i ":CALC1:DATA? SDAT") as [text|[|]]; reflexivity.
  - destruct (t_ask T h i ":SENSE1:FREQ:DATA?") as [text|[|]]; reflexivity.
Qed.

Lemma data_handlers_no_handle T d h :
  instrument d = None ->
  get_vna_data_handler T d h = (Raise AttributeError, d, h) /\
  get_freq_data_handler T d h = (Raise AttributeError, d, h).
Proof.
  intros Hi. unfold get_vna_data_handler, get_freq_data_handler, bind.
  destruct (no_handle_raises T d h Hi) as (_ & _ & _ & _ & H1 & H2).
  now rewrite H1, H2.
Qed.

(** X10: [__get_vna_data_handler] asks once for the data of trace 1.  A
    reply is passed on unchanged with the flag set, the empty reply
    included; a [Vxi11Exception] gives the flag cleared and empty data; a
    socket failure leaves the handler as [OSError].  So a cleared flag
    always comes with empty data, and the session is never changed. *)
Theorem get_vna_data_handler_answers T d h :
  session_of (get_vna_data_handler T d h) = d /\
  (forall b text,
     result_of (get_vna_data_handler T d h) = Ok (b, text) ->
     b = false -> text = "") /\
  (forall i, instrument d = Some i ->
     get_vna_data_handler T d h =
       (match t_ask T h i ":CALC1:DATA? SDAT" with
        | Done text => Ok (true, text)
        | Fail DeviceError => Ok (false, "")
        | Fail SocketFailure => Raise OSError
        end, d, h ++ [EvAsk i ":CALC1:DATA? SDAT"])%list).
Proof.
  destruct (instrument d) as [i|] eqn:Hi.
  - rewrite (proj1 (data_handlers_cases T d h i Hi)).
    split; [reflexivity|]. split; [|intros j [= <-]; reflexivity].
    intros b text Hr Hb. unfold result_of in Hr. cbn [fst] in Hr.
    destruct (t_ask T h i ":CALC1:DATA? SDAT") as [t|[|]];
      try discriminate Hr; injection Hr as <- <-;
      first [discriminate Hb|reflexivity].
  - rewrite (proj1 (data_handlers_no_handle T d h Hi)).
    split; [reflexivity|]. split.
    + intros b t Hr. discriminate Hr.
    + intros j Hj. discriminate Hj.
Qed.

Lemma get_vna_data_handler_answers_witness :
  get_vna_data_handler (Scenario.silent DeviceError) Scenario.connected []
    = (Ok (false, ""), Scenario.connected,
       [EvAsk Scenario.vna ":CALC1:DATA? SDAT"]) /\
  get_vna_data_handler (Scenario.device Scenario.anritsu_idn "3" "")
      Scenario.connected []
    = (Ok (true, ""), Scenario.connected,
       [EvAsk Scenario.vna ":CALC1:DATA? SDAT"]).
Proof.
  split.
  - exact (proj2 (proj2 (get_vna_data_handler_answers
             (Scenario.silent DeviceError) Scenario.connected []))
             Scenario.vna eq_refl).
  - exact (proj2 (proj2 (get_vna_data_handler_answers
             (Scenario.device Scenario.anritsu_idn "3" "")
             Scenario.connected [])) Scenario.vna eq_refl).
Defined.

(** X11: [__get_freq_data_handler] asks once for the frequencies of
    trace 1 and answers like the data handler: the reply unchanged with
    the flag set, the empty string with the flag cleared on a
    [Vxi11Exception], [OSError] out of the handler on a socket failure.
    The data it puts in the response is never [None], and the session is
    never changed. *)
Theorem get_freq_data_handler_answers T d h :
  session_of (get_freq_data_handler T d h) = d /\
  (forall b data,
     result_of (get_freq_data_handler T d h) = Ok (b, data) ->
     data <> None /\ (b = false -> data = Some "")) /\
  (forall i, instrument d = Some i ->
     get_freq_data_handler T d h =
       (match t_ask T h i ":SENSE1:FREQ:DATA?" with
        | Done text => Ok (true, Some text)
        | Fail DeviceError => Ok (false, Some "")
        | Fail SocketFailure => Raise OSError
        end, d, h ++ [EvAsk i ":SENSE1:FREQ:DATA?"])%list).
Proof.
  destruct (instrument d) as [i|] eqn:Hi.
  - rewrite (proj2 (data_handlers_cases T d h i Hi)).
    split; [reflexivity|]. split; [|intros j [= <-]; reflexivity].
    intros b data Hr. unfold result_of in Hr. cbn [fst] in Hr.
    destruct (t_ask T h i ":SENSE1:FREQ:DATA?") as [t|[|]];
      try discriminate Hr; injection Hr as <- <-;
      (split; [discriminate|intros Hb; first [discriminate Hb|reflexivity]]).
  - rewrite (proj2 (data_handlers_no_handle T d h Hi)).
    split; [reflexivity|]. split.
    + intros b t Hr. discriminate Hr.
    + intros j Hj. discriminate Hj.
Qed.

Lemma get_freq_data_handler_answers_witness :
  get_freq_data_handler (Scenario.silent DeviceError) Scenario.connected []
    = (Ok (false, Some ""), Scenario.connected,
       [EvAsk Scenario.vna ":SENSE1:FREQ:DATA?"]) /\
  get_freq_data_handler Scenario.anritsu Scenario.connected []
    = (Ok (true, Some "1.0,0.0"), Scenario.connected,
       [EvAsk Scenario.vna ":SENSE1:FREQ:DATA?"]).
Proof.
  split.
  - exact (proj2 (proj2 (get_freq_data_handler_answers
             (Scenario.silent DeviceError) Scenario.connected []))
             Scenario.vna eq_refl).
  - exact (proj2 (proj2 (get_freq_data_handler_answers
             Scenario.anritsu Scenario.connected [])) Scenario.vna eq_refl).
Defined.

Lemma bind_ret {A} (m : M A) d h : bind m ret d h = m d h.
Proof. unfold bind, ret. now destruct (m d h) as [[[a|e] d'] h']. Qed.

Lemma connection_handler_cases T addr d h :
  connection_handler T {| connection := true; ip_addr := addr |} d h
    = (match result_of (connect_to_vna T addr d h) with
       | Ok r => Ok (fst r)
       | Raise e => Raise e
       end,
       session_of (connect_to_vna T addr d h),
       history_of (connect_to_vna T addr d h)) /\
  connection_handler T {| connection := false; ip_addr := addr |} d h
    = disconnect_from_vna T d h.
Proof.
  unfold connection_handler; cbn [connection ip_addr].
  rewrite !bind_ret. split; [|reflexivity].
  unfold bind, ret, result_of, session_of, history_of.
  now destruct (connect_to_vna T addr d h) as [[[r|e] d'] h'].
Qed.

(** X12: a connect request followed by a disconnect request, on a session
    whose flag is not set.  The disconnect request calls [close()] on the
    handle of the connect exactly when the connect was answered true.  If
    that call succeeds, or is not made, the disconnect is answered true
    and the driver is back in its initial state; if it fails, the error
    leaves the handler and the session stays connected.  A handle opened
    by a connect that failed or raised is dropped without being closed. *)
Theorem connect_then_disconnect T d h addr any :
  vna_connected d = false ->
  let x := connection_handler T
             {| connection := true; ip_addr := addr |} d h in
  let i := mkInstrument addr in
  connection_handler T {| connection := false; ip_addr := any |}
      (session_of x) (history_of x)
    = match result_of x with
      | Ok true =>
          match t_close T (history_of x) i with
          | Done _ => (Ok true, init, history_of x ++ [EvClose i])
          | Fail f =>
              (Raise (exn_of f), session_of x, history_of x ++ [EvClose i])
          end
      | _ => (Ok true, init, history_of x)
      end%list.
Proof.
  intros Hflag x i. subst x i.
  rewrite (proj2 (connection_handler_cases T any _ _)),
    (proj1 (connection_handler_cases T addr d h)).
  destruct d as [ins flag ip]. cbn in Hflag. subst flag.
  rewrite connect_to_vna_cases. cbv zeta.
  destruct (t_open T h addr) as [[]|[|]];
    [destruct (t_ask T _ _ cmd_idn) as [idn|[|]];
     [destruct (classify_identity idn)| |]| |];
    try reflexivity.
  unfold session_of, history_of, result_of. cbn [fst snd].
  rewrite (disconnect_from_vna_cases T
             {| instrument := Some (mkInstrument addr);
                vna_connected := true; vna_ip := Some addr |}
             _ (mkInstrument addr) eq_refl).
  reflexivity.
Qed.

Lemma connect_then_disconnect_witness :
  connection_handler Scenario.other
      {| connection := false; ip_addr := "" |}
      {| instrument := Some Scenario.vna; vna_connected := false;
         vna_ip := None |}
      [EvOpen "10.0.0.1"; EvAsk Scenario.vna cmd_idn]
    = (Ok true, init, [EvOpen "10.0.0.1"; EvAsk Scenario.vna cmd_idn]) /\
  connection_handler Scenario.anritsu
      {| connection := false; ip_addr := "" |} Scenario.connected
      [EvOpen "10.0.0.1"; EvAsk Scenario.vna cmd_idn]
    = (Ok true, init,
       [EvOpen "10.0.0.1"; EvAsk Scenario.vna cmd_idn;
        EvClose Scenario.vna]) /\
  connection_handler (Scenario.unclosable DeviceError)
      {| connection := false; ip_addr := "" |} Scenario.connected
      [EvOpen "10.0.0.1"; EvAsk Scenario.vna cmd_idn]
    = (Raise Vxi11Exception, Scenario.connected,
       [EvOpen "10.0.0.1"; EvAsk Scenario.vna cmd_idn;
        EvClose Scenario.vna]).
Proof.
  split; [|split].
  - exact (connect_then_disconnect Scenario.other init [] "10.0.0.1" ""
             eq_refl).
  - exact (connect_then_disconnect Scenario.anritsu init [] "10.0.0.1" ""
             eq_refl).
  - exact (connect_then_disconnect (Scenario.unclosable DeviceError) init []
             "10.0.0.1" "" eq_refl).
Defined.

Lemma handler_accepts_iff srv :
  handler_accepts srv = true <->
  0 <= freq_points srv <= 4000 /\ 0 <= freq_stop srv /\
  freq_start srv <= freq_stop srv.
Proof.
  unfold handler_accepts. rewrite !andb_true_iff, !Z.leb_le. lia.
Qed.

(** X13: [__freq_sweep_setup_handler] turns a request down, answering
    false with nothing sent and the session untouched, when the point
    count is negative or above 4000, the stop frequency is negative, or
    the start frequency is above the stop frequency.  Every other request
    reaches the driver: on a session with a handle the start-frequency
    command is the next thing sent, and on a session without one the
    [AttributeError] of the driver leaves the handler. *)
Theorem freq_sweep_setup_handler_rejects T srv d h :
  (freq_points srv < 0 \/ 4000 < freq_points srv \/ freq_stop srv < 0 \/
   freq_stop srv < freq_start srv ->
   freq_sweep_setup_handler T srv d h = (Ok false, d, h)) /\
  (0 <= freq_points srv <= 4000 -> 0 <= freq_stop srv ->
   freq_start srv <= freq_stop srv ->
   (forall i, instrument d = Some i ->
      exists evs,
        history_of (freq_sweep_setup_handler T srv d h)
          = (h ++ EvWrite i (cmd_start (freq_start srv)) :: evs)%list) /\
   (instrument d = None ->
      freq_sweep_setup_handler T srv d h = (Raise AttributeError, d, h))).
Proof.
  rewrite freq_sweep_setup_handler_cases. split.
  - intros Hrej.
    destruct (handler_accepts srv) eqn:Ha; [|reflexivity].
    apply handler_accepts_iff in Ha. lia.
  - intros Hp Hs Hss.
    rewrite (proj2 (handler_accepts_iff srv)) by auto. split.
    + intros i Hi. unfold bind, set_trace_default.
      rewrite (set_frequency_sweep_cases T d h i Hi). cbv zeta.
      destruct (t_write T h i (cmd_start (freq_start srv))) as [[]|[|]];
        [destruct (t_write T _ i (cmd_stop (freq_stop srv))) as [[]|[|]];
         [destruct (t_write T _ i (cmd_points (freq_points srv)))
            as [[]|[|]]| |]| |];
        try (eexists; reflexivity);
        rewrite (set_trace_cases T d _ i Hi); cbv zeta;
        split_replies; unfold history_of, ret; cbn [snd];
        rewrite <- ?app_assoc; cbn [app]; eexists; reflexivity.
    + intros Hi. unfold bind.
      destruct (no_handle_raises T d h Hi) as (_ & _ & H & _).
      now rewrite H.
Qed.

Lemma freq_sweep_setup_handler_rejects_witness :
  freq_sweep_setup_handler Scenario.anritsu
      {| freq_start := 1; freq_stop := 2; freq_points := 4001 |}
      Scenario.connected []
    = (Ok false, Scenario.connected, []) /\
  freq_sweep_setup_handler Scenario.anritsu
      {| freq_start := 0; freq_stop := 0; freq_points := 4000 |} init []
    = (Raise AttributeError, init, []).
Proof.
  split.
  - apply (proj1 (freq_sweep_setup_handler_rejects Scenario.anritsu
             {| freq_start := 1; freq_stop := 2; freq_points := 4001 |}
             Scenario.connected [])).
    cbn. lia.
  - apply (proj2 (freq_sweep_setup_handler_rejects Scenario.anritsu
             {| freq_start := 0; freq_stop := 0; freq_points := 4000 |}
             init [])); cbn; try lia. reflexivity.
Defined.

(** X14: for a request it lets through, [__freq_sweep_setup_handler]
    answers with the value of [set_frequency_sweep] alone.  [set_trace()]
    is called after it, also when the sweep returned [False], and its
    value is dropped: the answer is true although the trace commands were
    refused with a [Vxi11Exception].  Only an exception, from either
    call, changes the outcome: it leaves the handler. *)
Theorem freq_sweep_setup_handler_answer T srv d h :
  0 <= freq_points srv <= 4000 -> 0 <= freq_stop srv ->
  freq_start srv <= freq_stop srv ->
  let x := set_frequency_sweep T (freq_start srv) (freq_stop srv)
             (freq_points srv) d h in
  let y := set_trace T 1 "S21" "SMITh" d (history_of x) in
  freq_sweep_setup_handler T srv d h =
    match result_of x with
    | Raise e => (Raise e, d, history_of x)
    | Ok status =>
        (match result_of y with Ok _ => Ok status | Raise e => Raise e end,
         d, history_of y)
    end.
Proof.
  intros Hp Hs Hss x y. subst x y.
  rewrite freq_sweep_setup_handler_cases,
    (proj2 (handler_accepts_iff srv)) by auto.
  unfold bind, set_trace_default, ret.
  assert (Hf := set_frequency_sweep_frame T d h (freq_start srv)
                  (freq_stop srv) (freq_points srv)).
  destruct (set_frequency_sweep T (freq_start srv) (freq_stop srv)
              (freq_points srv) d h) as [[[status|e] d'] h'];
    unfold session_of, result_of, history_of in *; cbn [fst snd] in *;
    subst d'; [|reflexivity].
  assert (Hg := set_trace_frame T d h' 1 "S21" "SMITh").
  destruct (set_trace T 1 "S21" "SMITh" d h') as [[[b|e] d'] h''];
    unfold session_of in Hg; cbn [fst snd] in *; subst d'; reflexivity.
Qed.

Lemma freq_sweep_setup_handler_answer_witness :
  freq_sweep_setup_handler (Scenario.failing_from 3 DeviceError)
      {| freq_start := 100; freq_stop := 200; freq_points := 10 |}
      Scenario.connected []
    = (Ok true, Scenario.connected,
       [EvWrite Scenario.vna ":SENS:FREQ:STAR 100";
        EvWrite Scenario.vna ":SENS:FREQ:STOP 200";
        EvWrite Scenario.vna ":SENS:SWE:POIN 10";
        EvWrite Scenario.vna ":SENS:TRACE1:SPAR S21"]) /\
  result_of (set_trace (Scenario.failing_from 3 DeviceError) 1 "S21" "SMITh"
               Scenario.connected
               [EvWrite Scenario.vna ":SENS:FREQ:STAR 100";
                EvWrite Scenario.vna ":SENS:FREQ:STOP 200";
                EvWrite Scenario.vna ":SENS:SWE:POIN 10"]) = Ok false.
Proof.
  split; [|reflexivity].
  rewrite (freq_sweep_setup_handler_answer (Scenario.failing_from 3 DeviceError)
             {| freq_start := 100; freq_stop := 200; freq_points := 10 |}
             Scenario.connected []); cbn; try lia; reflexivity.
Defined.

(* ===================================================================== *)
(** ** The node as a whole *)
(* ===================================================================== *)

Lemma reach_after {A} T c (m : M A) d h :
  run_call T c d h = after m d h ->
  reachable T d h ->
  reachable T (session_of (m d h)) (history_of (m d h)).
Proof.
  intros Hc Hreach. now apply (reach_call T c d h).
Qed.

(** Serving one request takes a reachable driver state to a reachable
    one. *)
Lemma serve_reachable T q d h :
  reachable T d h ->
  reachable T (fst (serve T q d h)) (snd (serve T q d h)).
Proof.
  intros Hreach. destruct q as [[[|] addr]| |srv| |]; unfold serve, after;
    cbn [fst snd].
  - rewrite (proj1 (connection_handler_cases T addr d h)).
    unfold session_of, history_of. cbn [fst snd].
    now apply (reach_after T (CallConnect addr)).
  - rewrite (proj2 (connection_handler_cases T addr d h)).
    now apply (reach_after T CallDisconnect).
  - unfold get_calibration_status_handler. rewrite bind_ret.
    now apply (reach_after T CallCalibration).
  - rewrite freq_sweep_setup_handler_cases.
    destruct (handler_accepts srv); [|exact Hreach].
    unfold bind, set_trace_default, ret.
    assert (H1 := reach_after T
              (CallSweep (freq_start srv) (freq_stop srv) (freq_points srv))
              (set_frequency_sweep T (freq_start srv) (freq_stop srv)
                 (freq_points srv)) d h eq_refl Hreach).
    destruct (set_frequency_sweep T (freq_start srv) (freq_stop srv)
                (freq_points srv) d h) as [[[status|e] d'] h'];
      unfold session_of, history_of in *; cbn [fst snd] in *;
      [|exact H1].
    assert (H2 := reach_after T (CallTrace 1 "S21" "SMITh")
              (set_trace T 1 "S21" "SMITh") d' h' eq_refl H1).
    destruct (set_trace T 1 "S21" "SMITh" d' h') as [[[b|e] d''] h''];
      unfold session_of, history_of in *; cbn [fst snd] in *; exact H2.
  - assert (H1 := reach_after T (CallGetFreq 1) (get_freq T 1) d h
              eq_refl Hreach).
    unfold get_freq_data_handler, bind, ret.
    destruct (get_freq T 1 d h) as [[[[text|]|e] d'] h'];
      unfold session_of, history_of in *; cbn [fst snd] in *; exact H1.
  - assert (H1 := reach_after T (CallGetTrace 1) (get_trace T 1) d h
              eq_refl Hreach).
    unfold get_vna_data_handler, bind, ret.
    destruct (get_trace T 1 d h) as [[[[text|]|e] d'] h'];
      unfold session_of, history_of in *; cbn [fst snd] in *; exact H1.
Qed.

Lemma serve_all_reachable T qs d h :
  reachable T d h ->
  reachable T (fst (serve_all T qs d h)) (snd (serve_all T qs d h)).
Proof.
  revert d h. induction qs as [|q qs IH]; intros d h Hreach; cbn.
  - exact Hreach.
  - assert (H := serve_reachable T q d h Hreach).
    destruct (serve T q d h) as [d' h']. now apply IH.
Qed.

Lemma serve_all_snoc T qs q d h :
  serve_all T (qs ++ [q]) d h
    = serve T q (fst (serve_all T qs d h)) (snd (serve_all T qs d h)).
Proof.
  revert d h. induction qs as [|q0 qs IH]; intros d h; cbn.
  - now destruct (serve T q d h).
  - destruct (serve T q0 d h) as [d1 h1]. apply IH.
Qed.

(** X15: whatever requests a node has served since it was started, with
    some of them possibly ended by an exception, its driver object is in
    a state that method calls of the driver reach.  So there too the
    address is stored exactly while the flag is set, the flag is only set
    while a handle is held, and everything served so far is still in the
    history in the order it was sent. *)
Theorem node_keeps_driver_consistent T qs :
  let d := fst (serve_all T qs init []) in
  let h := snd (serve_all T qs init []) in
  reachable T d h /\
  (vna_connected d = true <-> vna_ip d <> None) /\
  (vna_connected d = true -> instrument d <> None) /\
  (forall q,
     exists evs, snd (serve_all T (qs ++ [q]) init []) = (h ++ evs)%list).
Proof.
  intros d h. subst d h.
  assert (Hreach := serve_all_reachable T qs init [] (reach_init T)).
  destruct (reachable_session_invariant T _ _ Hreach) as (H1 & H2 & _).
  split; [exact Hreach|]. split; [exact H1|]. split; [exact H2|].
  intros q.
  rewrite serve_all_snoc.
  generalize (fst (serve_all T qs init [])) (snd (serve_all T qs init [])).
  intros d h.
  destruct q as [[[|] addr]| |srv| |]; unfold serve, after; cbn [snd].
  - rewrite (proj1 (connection_handler_cases T addr d h)).
    unfold history_of at 1. cbn [snd].
    exact (run_call_extends T (CallConnect addr) d h).
  - rewrite (proj2 (connection_handler_cases T addr d h)).
    exact (run_call_extends T CallDisconnect d h).
  - unfold get_calibration_status_handler. rewrite bind_ret.
    exact (run_call_extends T CallCalibration d h).
  - rewrite freq_sweep_setup_handler_cases.
    destruct (handler_accepts srv);
      [|exists []; now rewrite app_nil_r].
    unfold bind, set_trace_default, ret.
    destruct (run_call_extends T
                (CallSweep (freq_start srv) (freq_stop srv) (freq_points srv))
                d h) as [e1 He1].
    unfold run_call, after, history_of in He1. cbn [snd] in He1.
    destruct (set_frequency_sweep T (freq_start srv) (freq_stop srv)
                (freq_points srv) d h) as [[[status|e] d'] h'];
      unfold history_of; cbn [fst snd] in *; [|now exists e1].
    destruct (run_call_extends T (CallTrace 1 "S21" "SMITh") d' h')
      as [e2 He2].
    unfold run_call, after, history_of in He2. cbn [snd] in He2.
    destruct (set_trace T 1 "S21" "SMITh" d' h') as [[[b|e] d''] h''];
      cbn [fst snd] in *; subst h' h''; exists (e1 ++ e2)%list;
      now rewrite app_assoc.
  - destruct (run_call_extends T (CallGetFreq 1) d h) as [e1 He1].
    unfold run_call, after, history_of in He1. cbn [snd] in He1.
    unfold get_freq_data_handler, bind, ret, history_of.
    destruct (get_freq T 1 d h) as [[[[text|]|e] d'] h'];
      cbn [fst snd] in *; now exists e1.
  - destruct (run_call_extends T (CallGetTrace 1) d h) as [e1 He1].
    unfold run_call, after, history_of in He1. cbn [snd] in He1.
    unfold get_vna_data_handler, bind, ret, history_of.
    destruct (get_trace T 1 d h) as [[[[text|]|e] d'] h'];
      cbn [fst snd] in *; now exists e1.
Qed.

(* ===================================================================== *)
(** ** Replies read by the queries *)
(* ===================================================================== *)

(** X16: for a calibration reply that reads as an integer,
    [check_calibration_status] returns LOW only for code 4, MID only for
    codes 2 and 3, HIGH only for code 1, and NO_DATA exactly for the codes
    below 1 or above 4; and every integer is the reading of some reply,
    the one [str] prints. *)
Theorem calibration_codes_by_status T d h i r code :
  instrument d = Some i ->
  t_ask T h i cmd_cal = Done r -> PyStr.int r = Some code ->
  let result := result_of (check_calibration_status T d h) in
  (result = Ok VNA_CAL_LOW <-> code = 4) /\
  (result = Ok VNA_CAL_MID <-> code = 2 \/ code = 3) /\
  (result = Ok VNA_CAL_HIGH <-> code = 1) /\
  (result = Ok VNA_CAL_NO_DATA <-> code < 1 \/ 4 < code) /\
  PyStr.int (PyStr.str code) = Some code.
Proof.
  intros Hi Hr Hc result. subst result.
  rewrite (check_calibration_status_cases T d h i Hi), Hr, Hc.
  unfold result_of. cbn [fst].
  rewrite spec_calibration_status_eqn.
  unfold VNA_CAL_LOW, VNA_CAL_MID, VNA_CAL_HIGH, VNA_CAL_NO_DATA.
  split; [|split; [|split; [|split]]];
    try exact (PyStrFacts.int_str code);
    repeat match goal with
    | |- context [Z.eqb code ?k] => destruct (Z.eqb_spec code k)
    end;
    cbn; split; intros H; try discriminate H; try lia; try reflexivity.
Qed.

Lemma calibration_codes_by_status_witness :
  result_of (check_calibration_status
               (Scenario.device Scenario.anritsu_idn " 7 " "")
               Scenario.connected []) = Ok VNA_CAL_NO_DATA.
Proof.
  apply (proj1 (proj2 (proj2 (proj2 (calibration_codes_by_status
           (Scenario.device Scenario.anritsu_idn " 7 " "")
           Scenario.connected [] Scenario.vna " 7 " 7
           eq_refl eq_refl eq_refl))))).
  right. reflexivity.
Defined.

(** X17: on a session that holds a handle, [get_trace] and [get_freq]
    each send one query, built from the trace number, and nothing else.
    They return the reply itself exactly when the query is answered and
    [None] exactly when it fails with a [Vxi11Exception], so [None] never
    stands for an answered query, not even an empty one. *)
Theorem get_trace_get_freq_results T d h i n_trace :
  instrument d = Some i ->
  history_of (get_trace T n_trace d h)
    = (h ++ [EvAsk i (cmd_data n_trace)])%list /\
  history_of (get_freq T n_trace d h)
    = (h ++ [EvAsk i (cmd_freq n_trace)])%list /\
  (forall text,
     result_of (get_trace T n_trace d h) = Ok (Some text) <->
     t_ask T h i (cmd_data n_trace) = Done text) /\
  (forall text,
     result_of (get_freq T n_trace d h) = Ok (Some text) <->
     t_ask T h i (cmd_freq n_trace) = Done text) /\
  (result_of (get_trace T n_trace d h) = Ok None <->
   t_ask T h i (cmd_data n_trace) = Fail DeviceError) /\
  (result_of (get_freq T n_trace d h) = Ok None <->
   t_ask T h i (cmd_freq n_trace) = Fail DeviceError).
Proof.
  intros Hi.
  rewrite (get_trace_cases T d h i Hi), (get_freq_cases T d h i Hi).
  unfold result_of, history_of. cbn [fst snd].
  split; [reflexivity|]. split; [reflexivity|].
  destruct (t_ask T h i (cmd_data n_trace)) as [t1|[|]];
    destruct (t_ask T h i (cmd_freq n_trace)) as [t2|[|]];
    repeat split; intros H; try discriminate H; try reflexivity;
    try (now injection H as ->).
Qed.

Lemma get_trace_get_freq_results_witness :
  result_of (get_trace (Scenario.device Scenario.anritsu_idn "3" "") 4
               Scenario.connected []) = Ok (Some "") /\
  result_of (get_freq (Scenario.silent DeviceError) 4
               Scenario.connected []) = Ok None.
Proof.
  split.
  - apply (proj1 (proj2 (proj2 (get_trace_get_freq_results
             (Scenario.device Scenario.anritsu_idn "3" "")
             Scenario.connected [] Scenario.vna 4 eq_refl)))).
    reflexivity.
  - apply (proj2 (proj2 (proj2 (proj2 (proj2 (get_trace_get_freq_results
             (Scenario.silent DeviceError)
             Scenario.connected [] Scenario.vna 4 eq_refl)))))).
    reflexivity.
Defined.
